(** * LIF-RC-demo, [utils/utils.py]: label codec and plotting helpers

    A shallow embedding of the six functions of [utils/utils.py].

    - The two lookup functions [reservoir_dict_to_str] and
      [reservoir_dict_to_int] index a dict literal; the dicts are finite
      maps and a missing key raises Python's [KeyError].
    - The plotting functions talk to matplotlib's process-wide [pyplot]
      state.  That state is modelled as a record of the open figures and of
      what has been put on screen, and every function of the module is a
      computation in a state-and-exception monad over it.  An exception
      leaves the state as it was when it was raised, as in Python. *)

From stdpp Require Import gmap strings list numbers.
From Stdlib Require Import QArith Ascii.

Local Open Scope string_scope.
Local Open Scope Z_scope.

(** ** Python values and exceptions *)

(** The key a failed subscript reports. *)
Inductive pykey :=
| KInt (z : Z)
| KStr (s : string).

(** The built-in exceptions the module can raise. *)
Inductive exn :=
| KeyError (key : pykey)
| AttributeError (attr : string)
| TypeError
| IndexError
| ValueError.

Inductive result (A : Type) :=
| Ok (a : A)
| Raise (e : exn).
Arguments Ok {A} a.
Arguments Raise {A} e.

(** [f(e)] where evaluating [e] may raise, as may [f]. *)
Definition and_then {A B} (r : result A) (f : A → result B) : result B :=
  match r with
  | Ok a => f a
  | Raise e => Raise e
  end.

(** [d[k]] on a dict: the value, or [KeyError(k)]. *)
Definition dict_getitem `{Countable K} {V} (inj : K → pykey)
    (d : gmap K V) (k : K) : result V :=
  match d !! k with
  | Some v => Ok v
  | None => Raise (KeyError (inj k))
  end.

(** ** Label codec *)

Module Codec.

Definition int_to_str : gmap Z string :=
  {[ 0 := "Timesteps";
     1 := "Input Current";
     2 := "Membrane Potential";
     3 := "Spikes" ]}.

Definition reservoir_dict_to_str (input : Z) : result string :=
  dict_getitem KInt int_to_str input.

Definition str_to_int : gmap string Z :=
  {[ "Timesteps" := 0;
     "Input Current" := 1;
     "Membrane Potential" := 2;
     "Spikes" := 3 ]}.

Definition reservoir_dict_to_int (input : string) : result Z :=
  dict_getitem KStr str_to_int input.

(** The four labels and the four codes of the spec. *)
Definition labels : list string :=
  ["Timesteps"; "Input Current"; "Membrane Potential"; "Spikes"].

Definition codes : list Z := [0; 1; 2; 3].

(** The pairs of the spec's table. *)
Definition table : list (string * Z) :=
  [("Timesteps", 0); ("Input Current", 1); ("Membrane Potential", 2); ("Spikes", 3)].

End Codec.

(** ** Array-like arguments *)

(** The one-dimensional array-likes a caller passes: a [torch.Tensor], or a
    plain Python [list].  Samples are rationals; the module never computes
    with them, it only slices, selects and forwards them. *)
Inductive pyseq :=
| Tensor (data : list Q)
| PyList (data : list Q).

Definition samples (s : pyseq) : list Q :=
  match s with
  | Tensor d => d
  | PyList d => d
  end.

(** Truth value of a number: non-zero. *)
Definition truthy (q : Q) : bool := negb (Qnum q =? 0).

(** [s.bool()]: a tensor converts element-wise; a list has no such
    attribute. *)
Definition bool_method (s : pyseq) : result (list bool) :=
  match s with
  | Tensor d => Ok (truthy <$> d)
  | PyList _ => Raise (AttributeError "bool")
  end.

(** The entries of [d] at the positions where [mask] holds. *)
Fixpoint masked_select (d : list Q) (mask : list bool) : list Q :=
  match d, mask with
  | x :: d', b :: mask' =>
      if b then x :: masked_select d' mask' else masked_select d' mask'
  | _, _ => []
  end.

(** [d[mask]] with [d] a plain list and [mask] a boolean tensor, as torch
    has it: the list asks the tensor for an index, and a tensor of exactly
    one element gives one, 1 for true and 0 for false; the list then
    returns that element, or has none.  A tensor of any other size is no
    index. *)
Definition list_getitem_torch (d : list Q) (mask : list bool) : result (list Q) :=
  match mask with
  | [b] =>
      match d !! (if b then 1 else 0)%nat with
      | Some x => Ok [x]
      | None => Raise IndexError
      end
  | _ => Raise TypeError
  end.

(** A two-dimensional [numpy.ndarray] of shape [(length rows, ncols)]. *)
Record ndarray2 := {
  ncols : nat;
  rows : list (list Q);
}.

Definition nrows (a : ndarray2) : nat := length (rows a).

Definition well_shaped (a : ndarray2) : Prop :=
  Forall (λ r, length r = ncols a) (rows a).

(** [a[:, :k]] *)
Definition slice_columns (k : nat) (a : ndarray2) : ndarray2 :=
  {| ncols := Nat.min k (ncols a); rows := take k <$> rows a |}.

(** Column [j] of [a], top to bottom. *)
Definition column (a : ndarray2) (j : nat) : list Q :=
  (λ r, nth j r 0%Q) <$> rows a.

(** The object [param_sets] maps a label to. *)
Record neuron_params := {
  v_threshold : Q;
}.

(** One value of [results]: [(time, input_current, membrane_potential,
    spikes)]. *)
Definition series : Type := pyseq * pyseq * pyseq * pyseq.

(** ** The pyplot state *)

(** What a line is plotted against: [plot(y)] uses the sample index,
    [plot(x, y)] the given abscissae. *)
Inductive xdata :=
| Index
| XValues (x : list Q).

Inductive artist :=
| Line2D (x : xdata) (y : list Q) (label : option string) (color : option string)
| HLine (y : Q) (color linestyle label : string)
| VLines (x : list Q) (ymin ymax : Q) (color : string) (linewidth alpha : Q).

Record legend := {
  loc : option string;
  entries : list string;
}.

(** A subplot: its decorations and, in drawing order, its artists. *)
Record axes := {
  title : option string;
  xlabel : option string;
  ylabel : option string;
  artists : list artist;
  ax_legend : option legend;
}.

(** A figure: its axes in creation order; the last one is current. *)
Record figure := {
  figsize : option (Z * Z);
  fig_axes : list axes;
  tight : bool;
}.

(** pyplot's process-wide state: the open figures, newest (current) first,
    and the figures put on screen so far, in order. *)
Record pyplot := {
  open_figs : list figure;
  displayed : list figure;
}.

Definition initial : pyplot := {| open_figs := []; displayed := [] |}.

Definition blank_axes : axes :=
  {| title := None; xlabel := None; ylabel := None; artists := [];
     ax_legend := None |}.

Definition new_figure (size : option (Z * Z)) (n : nat) : figure :=
  {| figsize := size; fig_axes := replicate n blank_axes; tight := false |}.

Definition set_open (figs : list figure) (st : pyplot) : pyplot :=
  {| open_figs := figs; displayed := displayed st |}.

Definition set_fig_axes (axs : list axes) (f : figure) : figure :=
  {| figsize := figsize f; fig_axes := axs; tight := tight f |}.

Definition set_title (s : string) (ax : axes) : axes :=
  {| title := Some s; xlabel := xlabel ax; ylabel := ylabel ax;
     artists := artists ax; ax_legend := ax_legend ax |}.

Definition set_xlabel (s : string) (ax : axes) : axes :=
  {| title := title ax; xlabel := Some s; ylabel := ylabel ax;
     artists := artists ax; ax_legend := ax_legend ax |}.

Definition set_ylabel (s : string) (ax : axes) : axes :=
  {| title := title ax; xlabel := xlabel ax; ylabel := Some s;
     artists := artists ax; ax_legend := ax_legend ax |}.

Definition add_artists (new : list artist) (ax : axes) : axes :=
  {| title := title ax; xlabel := xlabel ax; ylabel := ylabel ax;
     artists := artists ax ++ new; ax_legend := ax_legend ax |}.

(** The label an artist contributes to a legend; matplotlib skips labels
    that start with an underscore. *)
Definition legend_label (a : artist) : option string :=
  let shown (l : string) :=
    match l with
    | String "_"%char _ => None
    | _ => Some l
    end in
  match a with
  | Line2D _ _ (Some l) _ => shown l
  | Line2D _ _ None _ => None
  | HLine _ _ _ l => shown l
  | VLines _ _ _ _ _ _ => None
  end.

(** [legend()]: one entry per labelled artist present at the call. *)
Definition add_legend (place : option string) (ax : axes) : axes :=
  {| title := title ax; xlabel := xlabel ax; ylabel := ylabel ax;
     artists := artists ax;
     ax_legend := Some {| loc := place; entries := omap legend_label (artists ax) |} |}.

(** Apply [g] to the last element, which is created from [dflt] when the
    list is empty: pyplot's get-current-or-create. *)
Fixpoint on_last {A} (g : A → A) (dflt : A) (l : list A) : list A :=
  match l with
  | [] => [g dflt]
  | a :: l' =>
      match l' with
      | [] => [g a]
      | _ :: _ => a :: on_last g dflt l'
      end
  end.

(** The same on the head. *)
Definition on_head {A} (g : A → A) (dflt : A) (l : list A) : list A :=
  match l with
  | [] => [g dflt]
  | a :: l' => g a :: l'
  end.

(** The axes a [plt.*] call acts on, before the call. *)
Definition current_axes (st : pyplot) : axes :=
  match open_figs st with
  | [] => blank_axes
  | f :: _ => List.last (fig_axes f) blank_axes
  end.

(** ** The monad of the plotting functions *)

Definition M (A : Type) : Type := pyplot → result A * pyplot.

Definition ret {A} (a : A) : M A := λ st, (Ok a, st).

Definition raise {A} (e : exn) : M A := λ st, (Raise e, st).

Definition lift {A} (r : result A) : M A := λ st, (r, st).

Definition bind {A B} (m : M A) (k : A → M B) : M B := λ st,
  match m st with
  | (Ok a, st') => k a st'
  | (Raise e, st') => (Raise e, st')
  end.

Declare Scope py_scope.
Delimit Scope py_scope with py.
Notation "x <- m ;; k" := (bind m (λ x, k))
  (at level 100, m at next level, right associativity) : py_scope.
Notation "m ;; k" := (bind m (λ _, k))
  (at level 100, k at level 200, right associativity) : py_scope.
Local Open Scope py_scope.

(** [for i, a in enumerate(l): body], counting from [i]. *)
Fixpoint for_enumerate {A} (body : nat → A → M unit) (i : nat) (l : list A)
    : M unit :=
  match l with
  | [] => ret tt
  | a :: l' => body i a ;; for_enumerate body (S i) l'
  end.

(** ** pyplot calls on the current figure and axes *)

(** Act on the current axes; the figure and the axes are created when
    there is none. *)
Definition gca_apply (g : axes → axes) : M unit := λ st,
  let on_fig f := set_fig_axes (on_last g blank_axes (fig_axes f)) f in
  (Ok tt, set_open (on_head on_fig (new_figure None 0) (open_figs st)) st).

(** [plt.figure(figsize=size)]: a new, empty, current figure. *)
Definition plt_figure (size : Z * Z) : M unit := λ st,
  (Ok tt, set_open (new_figure (Some size) 0 :: open_figs st) st).

Definition plt_title (s : string) : M unit := gca_apply (set_title s).
Definition plt_xlabel (s : string) : M unit := gca_apply (set_xlabel s).
Definition plt_ylabel (s : string) : M unit := gca_apply (set_ylabel s).

(** [plt.plot(y, label=..., color=...)] with a one-dimensional [y]. *)
Definition plt_plot (y : list Q) (label color : option string) : M unit :=
  gca_apply (add_artists [Line2D Index y label color]).

(** [plt.plot(a)] with a two-dimensional [a]: one line per column. *)
Definition plt_plot_columns (a : ndarray2) : M unit :=
  gca_apply
    (add_artists ((λ j, Line2D Index (column a j) None None) <$> seq 0 (ncols a))).

Definition plt_legend : M unit := gca_apply (add_legend None).

(** [plt.tight_layout()] *)
Definition plt_tight_layout : M unit := λ st,
  let tighten f :=
    {| figsize := figsize f; fig_axes := fig_axes f; tight := true |} in
  (Ok tt, set_open (on_head tighten (new_figure None 0) (open_figs st)) st).

(** [plt.show()]: every open figure goes on screen, oldest first, and is
    closed. *)
Definition plt_show : M unit := λ st,
  (Ok tt, {| open_figs := []; displayed := displayed st ++ rev (open_figs st) |}).

(** ** Subplot grids *)

(** What [plt.subplots] returns as [axs]: with one row the array of axes
    is one-dimensional, otherwise it has the shape of the grid.  An axes
    is named by its position in the new (current) figure, row by row. *)
Inductive axs_array :=
| Axs1D (n : nat)
| Axs2D (r c : nat).

(** [plt.subplots(nrows, ncols, figsize=size)].  matplotlib refuses a grid
    without rows or columns, after it has made the figure. *)
Definition plt_subplots (nrows ncols : nat) (size : Z * Z) : M axs_array := λ st,
  if decide (nrows = 0%nat ∨ ncols = 0%nat) then
    (Raise ValueError, set_open (new_figure (Some size) 0 :: open_figs st) st)
  else
    (Ok (if decide (nrows = 1%nat) then Axs1D ncols else Axs2D nrows ncols),
     set_open (new_figure (Some size) (nrows * ncols) :: open_figs st) st).

(** [axs[j]] as an axes.  On a two-dimensional [axs] a single index gives
    a row of axes, which has none of the methods of an axes;
    [plot_results] takes this path with one row only. *)
Definition axs_item (axs : axs_array) (j : nat) : M nat :=
  match axs with
  | Axs1D n => if decide (j < n)%nat then ret j else raise IndexError
  | Axs2D _ _ => raise (AttributeError "set_title")
  end.

(** [axs[i, j]]; a one-dimensional [axs] has too few dimensions. *)
Definition axs_item2 (axs : axs_array) (i j : nat) : M nat :=
  match axs with
  | Axs1D _ => raise IndexError
  | Axs2D r c =>
      if decide (i < r ∧ j < c)%nat then ret (i * c + j)%nat else raise IndexError
  end.

(** ** Calls on one axes of the current figure *)

(** Update axes [h] of the current figure. *)
Definition ax_apply (h : nat) (g : axes → axes) : M unit := λ st,
  match open_figs st with
  | f :: figs =>
      match fig_axes f !! h with
      | Some ax => (Ok tt, set_open (set_fig_axes (<[h := g ax]> (fig_axes f)) f :: figs) st)
      | None => (Raise IndexError, st)
      end
  | [] => (Raise IndexError, st)
  end.

Definition ax_set_title (h : nat) (s : string) : M unit := ax_apply h (set_title s).
Definition ax_set_xlabel (h : nat) (s : string) : M unit := ax_apply h (set_xlabel s).
Definition ax_set_ylabel (h : nat) (s : string) : M unit := ax_apply h (set_ylabel s).

(** [ax.plot(y)] *)
Definition ax_plot (h : nat) (y : pyseq) : M unit :=
  ax_apply h (add_artists [Line2D Index (samples y) None None]).

(** [ax.plot(x, y)]; matplotlib wants as many abscissae as ordinates. *)
Definition ax_plot_xy (h : nat) (x y : pyseq) : M unit :=
  if decide (length (samples x) = length (samples y)) then
    ax_apply h (add_artists [Line2D (XValues (samples x)) (samples y) None None])
  else raise ValueError.

(** [ax.axhline(y=y, color=..., linestyle=..., label=...)] *)
Definition ax_axhline (h : nat) (y : Q) (color linestyle label : string) : M unit :=
  ax_apply h (add_artists [HLine y color linestyle label]).

(** [ax.legend(loc=...)] *)
Definition ax_legend_call (h : nat) (place : option string) : M unit :=
  ax_apply h (add_legend place).

(** [ax.vlines(x, ymin, ymax, color=..., linewidth=..., alpha=...)] *)
Definition ax_vlines (h : nat) (x : list Q) (ymin ymax : Q) (color : string)
    (linewidth alpha : Q) : M unit :=
  ax_apply h (add_artists [VLines x ymin ymax color linewidth alpha]).

(** [param_sets[label]] *)
Definition param_sets_getitem (param_sets : gmap string neuron_params)
    (label : string) : M neuron_params :=
  lift (dict_getitem KStr param_sets label).

(** ** The plotting functions *)

Definition plot_reservoir_data (x_train y_train : list Q)
    (reservoir_input_feature reservoir_target : string) : M unit :=
  plt_plot (take 50 x_train) (Some ("Reservoir input: " +:+ reservoir_input_feature)) None ;;
  plt_plot (take 50 y_train) (Some ("Reservoir target: " +:+ reservoir_target)) None ;;
  plt_legend ;;
  plt_show.

Definition plot_reservoir_activations (reservoir_states : ndarray2) : M unit :=
  plt_figure (10, 3) ;;
  plt_title "Activation of 20 reservoir neurons." ;;
  plt_ylabel "Reservoir activations" ;;
  plt_xlabel "Timesteps" ;;
  plt_plot_columns (slice_columns 20 reservoir_states) ;;
  plt_show.

Definition plot_reservoir_predictions (x_train y_train y_pred : list Q)
    (reservoir_input_feature reservoir_target : string) : M unit :=
  plt_figure (10, 3) ;;
  plt_title "Comparing real data with the reservoirs prediction." ;;
  plt_xlabel "Timesteps" ;;
  plt_plot (take 70 x_train)
    (Some ("Reservoir input: " +:+ reservoir_input_feature)) (Some "green") ;;
  plt_plot y_pred (Some ("Predicted " +:+ reservoir_target)) (Some "blue") ;;
  plt_plot (take 70 y_train) (Some ("Actual " +:+ reservoir_target)) (Some "red") ;;
  plt_legend ;;
  plt_show.

Section PlotResults.

(** Two things [plot_results] asks of the libraries are parameters: the
    y-limits matplotlib reports for an axes (its autoscaling), and what
    indexing a plain [list] with a boolean tensor gives.  For the second,
    [list_getitem_torch] is what torch does; what is proved without
    naming it holds whatever the indexing does. *)
Variable get_ylim : axes → Q * Q.
Variable list_getitem_tensor : list Q → list bool → result (list Q).

(** [time[mask]] with [mask] a boolean tensor: a tensor selects, and wants
    a mask of its own length. *)
Definition getitem_mask (time : pyseq) (mask : list bool) : result (list Q) :=
  match time with
  | Tensor d =>
      if decide (length d = length mask) then Ok (masked_select d mask)
      else Raise IndexError
  | PyList d => list_getitem_tensor d mask
  end.

(** [ax.get_ylim()] *)
Definition ax_get_ylim (h : nat) : M (Q * Q) := λ st,
  match open_figs st with
  | f :: _ =>
      match fig_axes f !! h with
      | Some ax => (Ok (get_ylim ax), st)
      | None => (Raise IndexError, st)
      end
  | [] => (Raise IndexError, st)
  end.

(** The spike indicators, which both branches add in the same way to
    their membrane-potential axes; [ax] is the expression that names the
    axes, evaluated where the source writes it. *)
Definition add_spike_indicators (ax : M nat) (time spikes : pyseq) (linewidth : Q)
    : M unit :=
  spike_times <- lift (and_then (bool_method spikes) (getitem_mask time)) ;;
  h <- ax ;;
  h0 <- ax ;;
  lo <- ax_get_ylim h0 ;;
  h1 <- ax ;;
  hi <- ax_get_ylim h1 ;;
  ax_vlines h spike_times (fst lo) (snd hi) "r" linewidth (1 # 2).

(** Body of the loop of the single-plot branch. *)
Definition single_row (param_sets : gmap string neuron_params) (axs1 axs2 : nat)
    (i : nat) (item : string * series) : M unit :=
  let '(label, (time, input_current, membrane_potential, spikes)) := item in
  ax_set_title axs1 (label +:+ " - Input Current") ;;
  ax_plot_xy axs1 time input_current ;;
  ax_set_xlabel axs1 "Timesteps" ;;
  ax_set_ylabel axs1 "Current" ;;
  ax_set_title axs2 (label +:+ " - Membrane Potential") ;;
  ax_plot_xy axs2 time membrane_potential ;;
  p <- param_sets_getitem param_sets label ;;
  ax_axhline axs2 (v_threshold p) "r" "--" "Threshold" ;;
  ax_set_xlabel axs2 "Timesteps" ;;
  ax_set_ylabel axs2 "Voltage" ;;
  ax_legend_call axs2 None ;;
  add_spike_indicators (ret axs2) time spikes (1 # 2).

(** Body of the loop of the other branch. *)
Definition multi_row (param_sets : gmap string neuron_params) (axs : axs_array)
    (i : nat) (item : string * series) : M unit :=
  let '(label, (time, input_current, membrane_potential, spikes)) := item in
  let at_ (j : nat) (call : nat → M unit) : M unit :=
    h <- axs_item2 axs i j ;; call h in
  at_ 0%nat (λ h, ax_set_title h (label +:+ " - Input Current")) ;;
  at_ 0%nat (λ h, ax_plot h input_current) ;;
  at_ 0%nat (λ h, ax_set_xlabel h "Timesteps") ;;
  at_ 0%nat (λ h, ax_set_ylabel h "Current") ;;
  at_ 1%nat (λ h, ax_set_title h (label +:+ " - Membrane Potential")) ;;
  at_ 1%nat (λ h, ax_plot h membrane_potential) ;;
  h <- axs_item2 axs i 1 ;;
  p <- param_sets_getitem param_sets label ;;
  ax_axhline h (v_threshold p) "r" "--" "Threshold" ;;
  at_ 1%nat (λ h, ax_axhline h 0 "grey" "--" "RP") ;;
  at_ 1%nat (λ h, ax_set_xlabel h "Timesteps") ;;
  at_ 1%nat (λ h, ax_set_ylabel h "Membrane Potential") ;;
  at_ 1%nat (λ h, ax_legend_call h (Some "upper right")) ;;
  add_spike_indicators (axs_item2 axs i 1) time spikes 1.

Definition plot_results (results : list (string * series))
    (param_sets : gmap string neuron_params) : M unit :=
  let num_sets := length results in
  axs <- plt_subplots num_sets 2 (10, 3 * Z.of_nat num_sets) ;;
  (if decide (num_sets = 1%nat) then
     axs1 <- axs_item axs 0 ;;
     axs2 <- axs_item axs 1 ;;
     for_enumerate (single_row param_sets axs1 axs2) 0 results
   else
     for_enumerate (multi_row param_sets axs) 0 results) ;;
  plt_tight_layout ;;
  plt_show.

(** *** What the loop bodies leave on the axes

    The states of the two axes of a row at the points where its loop body
    can stop; the lemmas below relate them to [single_row] and
    [multi_row]. *)

(** The current figure has axes [axs]; nothing else differs from [f],
    [figs] and [disp]. *)
Definition grid_state (f : figure) (figs disp : list figure) (axs : list axes)
    : pyplot :=
  {| open_figs := set_fig_axes axs f :: figs; displayed := disp |}.

(** The input-current axes once its four calls are done. *)
Definition input_axes (x : xdata) (label : string) (input_current : pyseq) : axes :=
  {| title := Some (label +:+ " - Input Current");
     xlabel := Some "Timesteps";
     ylabel := Some "Current";
     artists := [Line2D x (samples input_current) None None];
     ax_legend := None |}.

(** The membrane-potential axes when [param_sets[label]] is evaluated. *)
Definition membrane_plotted (x : xdata) (label : string)
    (membrane_potential : pyseq) : axes :=
  {| title := Some (label +:+ " - Membrane Potential");
     xlabel := None;
     ylabel := None;
     artists := [Line2D x (samples membrane_potential) None None];
     ax_legend := None |}.

(** The membrane-potential axes when the spike indicators are computed,
    in the single-plot branch and in the other one. *)
Definition membrane_axes_single (label : string) (time membrane_potential : pyseq)
    (p : neuron_params) : axes :=
  {| title := Some (label +:+ " - Membrane Potential");
     xlabel := Some "Timesteps";
     ylabel := Some "Voltage";
     artists :=
       [Line2D (XValues (samples time)) (samples membrane_potential) None None;
        HLine (v_threshold p) "r" "--" "Threshold"];
     ax_legend := Some {| loc := None; entries := ["Threshold"] |} |}.

Definition membrane_axes_multi (label : string) (membrane_potential : pyseq)
    (p : neuron_params) : axes :=
  {| title := Some (label +:+ " - Membrane Potential");
     xlabel := Some "Timesteps";
     ylabel := Some "Membrane Potential";
     artists :=
       [Line2D Index (samples membrane_potential) None None;
        HLine (v_threshold p) "r" "--" "Threshold";
        HLine 0 "grey" "--" "RP"];
     ax_legend := Some {| loc := Some "upper right"; entries := ["Threshold"; "RP"] |} |}.

Definition abscissa (single : bool) (time : pyseq) : xdata :=
  if single then XValues (samples time) else Index.

Definition membrane_axes (single : bool) (label : string)
    (time membrane_potential : pyseq) (p : neuron_params) : axes :=
  if single then membrane_axes_single label time membrane_potential p
  else membrane_axes_multi label membrane_potential p.

Definition marker_width (single : bool) : Q := if single then 1 # 2 else 1.

(** [ax] with the spike indicators added, between the y-limits [ax] has
    without them. *)
Definition with_spike_lines (ax : axes) (spike_times : list Q) (linewidth : Q) : axes :=
  add_artists
    [VLines spike_times (fst (get_ylim ax)) (snd (get_ylim ax)) "r" linewidth (1 # 2)]
    ax.

(** A row the loop body gets through: its label has parameters, and
    [time[spikes.bool()]] evaluates. *)
Definition row_ready (param_sets : gmap string neuron_params)
    (item : string * series) : Prop :=
  let '(label, (time, _, _, spikes)) := item in
  is_Some (param_sets !! label) ∧
  ∃ spike_times, and_then (bool_method spikes) (getitem_mask time) = Ok spike_times.

(** The axes a run of the second branch's loop over ready rows leaves, two
    per row. *)
Inductive rows_drawn (param_sets : gmap string neuron_params)
    : list (string * series) → list axes → Prop :=
| rows_drawn_nil : rows_drawn param_sets [] []
| rows_drawn_cons label time ic mp sp p spike_times rows axs :
    param_sets !! label = Some p →
    and_then (bool_method sp) (getitem_mask time) = Ok spike_times →
    rows_drawn param_sets rows axs →
    rows_drawn param_sets ((label, (time, ic, mp, sp)) :: rows)
      (input_axes Index label ic
         :: with_spike_lines (membrane_axes_multi label mp p) spike_times 1 :: axs).

(** The state after a call that got to [plt.show()], and the state a call
    leaves when it stops in its loop: the new figure has axes [axs]. *)
Definition shown (st : pyplot) (size : Z * Z) (axs : list axes) : pyplot :=
  {| open_figs := [];
     displayed := displayed st ++ rev (open_figs st)
       ++ [{| figsize := Some size; fig_axes := axs; tight := true |}] |}.

Definition created (st : pyplot) (size : Z * Z) (axs : list axes) : pyplot :=
  {| open_figs :=
       {| figsize := Some size; fig_axes := axs; tight := false |} :: open_figs st;
     displayed := displayed st |}.

(** Everything drawn on the open figures. *)
Definition open_artists (st : pyplot) : list artist :=
  flat_map (λ f, flat_map artists (fig_axes f)) (open_figs st).

(** The spec's reading of a call with a label that [param_sets] lacks: it
    fails with the lookup error, and has neither drawn nor displayed
    anything by then. *)
Definition fails_before_drawing (results : list (string * series))
    (param_sets : gmap string neuron_params) (st : pyplot) : Prop :=
  ∃ label st',
    plot_results results param_sets st = (Raise (KeyError (KStr label)), st') ∧
    open_artists st' = open_artists st ∧
    displayed st' = displayed st.

(** The spec's reading of the spike indicators: after a call that returns,
    the membrane-potential axes of every row ends with vertical lines at
    the values of [time] whose entry of [spikes] is truthy. *)
Definition markers_at_truthy_spikes (results : list (string * series))
    (param_sets : gmap string neuron_params) (st : pyplot) : Prop :=
  ∀ st',
    plot_results results param_sets st = (Ok tt, st') →
    ∃ fig,
      list.last (displayed st') = Some fig ∧
      ∀ i label time ic mp sp,
        results !! i = Some (label, (time, ic, mp, sp)) →
        ∃ ax earlier lo hi c w al,
          fig_axes fig !! (2 * i + 1)%nat = Some ax ∧
          artists ax = (earlier ++
            [VLines (filter (λ ts, truthy ts.2 = true)
                       (zip (samples time) (samples sp))).*1 lo hi c w al])%list.


End PlotResults.

(** ** Sample inputs for the examples *)

(** A stand-in for matplotlib's autoscaling: the upper limit grows with
    the number of artists. *)
Definition sample_ylim (ax : axes) : Q * Q :=
  (0, inject_Z (Z.of_nat (length (artists ax))))%Q.

(** Lists are indexed as torch has it. *)
Definition sample_list_getitem (d : list Q) (mask : list bool) : result (list Q) :=
  list_getitem_torch d mask.

(** Three time steps with a spike at the second. *)
Definition sample_series : series :=
  (Tensor [0; 1; 2], Tensor [5; 5; 5], Tensor [0; 1; 0], Tensor [0; 1; 0])%Q.

(** The same with the spikes as a plain list. *)
Definition sample_series_list : series :=
  (Tensor [0; 1; 2], Tensor [5; 5; 5], Tensor [0; 1; 0], PyList [0; 1; 0])%Q.

Definition sample_params : gmap string neuron_params :=
  {[ "a" := {| v_threshold := 1 |}; "b" := {| v_threshold := 2 |} ]}.

(** One entry, two entries, and one entry with list spikes. *)
Definition sample_one : list (string * series) := [("a", sample_series)].

Definition sample_two : list (string * series) :=
  [("a", sample_series); ("b", sample_series)].


(** A grid of 30 time steps and 5 neurons. *)
Definition sample_states : ndarray2 :=
  {| ncols := 5; rows := replicate 30 [1; 2; 3; 4; 5]%Q |}.

(** An entry whose [time] is longer than its [input_current], and one whose
    [spikes] is shorter than its [time]. *)
Definition sample_series_uneven : series :=
  (Tensor [0; 1; 2], Tensor [5; 5], Tensor [0; 1; 0], Tensor [0; 1; 0])%Q.

Definition sample_series_short_spikes : series :=
  (Tensor [0; 1; 2], Tensor [5; 5; 5], Tensor [0; 1; 0], Tensor [0; 1])%Q.

(** Two sequences of 71 samples that differ in the last one. *)
Definition sample_long_a : list Q := (replicate 70 1%Q ++ [2%Q])%list.
Definition sample_long_b : list Q := (replicate 70 1%Q ++ [3%Q])%list.

(** Two grids of one row and 21 columns that differ in the last one. *)
Definition sample_wide_a : ndarray2 :=
  {| ncols := 21; rows := [(replicate 20 1%Q ++ [2%Q])%list] |}.
Definition sample_wide_b : ndarray2 :=
  {| ncols := 21; rows := [(replicate 20 1%Q ++ [7%Q])%list] |}.

(** One time step, given as a plain list, without a spike. *)
Definition sample_series_list_time : series :=
  (PyList [7], Tensor [5], Tensor [0], Tensor [0])%Q.

Definition sample_one_list_time : list (string * series) :=
  [("a", sample_series_list_time)].

(** * Properties *)

Local Open Scope list_scope.

(** ** Label codec *)

Lemma dict_getitem_ok `{Countable K} {V} (inj : K → pykey) (d : gmap K V) k v :
  dict_getitem inj d k = Ok v ↔ d !! k = Some v.
Proof. unfold dict_getitem. destruct (d !! k); split; congruence. Qed.

Lemma dict_getitem_raise `{Countable K} {V} (inj : K → pykey) (d : gmap K V) k :
  d !! k = None → dict_getitem inj d k = Raise (KeyError (inj k)).
Proof. unfold dict_getitem. intros ->. reflexivity. Qed.

Lemma str_to_int_lookup L c :
  Codec.str_to_int !! L = Some c ↔ (L, c) ∈ Codec.table.
Proof.
  unfold Codec.str_to_int, Codec.table. rewrite !elem_of_cons, elem_of_nil.
  split; intros HL.
  - rewrite !lookup_insert, lookup_singleton in HL.
    repeat case_decide; simplify_eq; auto 10.
  - repeat destruct HL as [HL|HL]; try done; simplify_eq; reflexivity.
Qed.

Lemma int_to_str_lookup c L :
  Codec.int_to_str !! c = Some L ↔ (L, c) ∈ Codec.table.
Proof.
  unfold Codec.int_to_str, Codec.table. rewrite !elem_of_cons, elem_of_nil.
  split; intros HL.
  - rewrite !lookup_insert, lookup_singleton in HL.
    repeat case_decide; simplify_eq; auto 10.
  - repeat destruct HL as [HL|HL]; try done; simplify_eq; reflexivity.
Qed.

(** C1.  Converting one of the four labels to its code and back gives the
    label, and converting one of the four codes to its label and back
    gives the code.  Both functions are pure: they are functions of their
    argument alone and have no access to the pyplot state. *)
Theorem codec_round_trip :
  (∀ L, L ∈ Codec.labels →
     and_then (Codec.reservoir_dict_to_int L) Codec.reservoir_dict_to_str = Ok L) ∧
  (∀ C, C ∈ Codec.codes →
     and_then (Codec.reservoir_dict_to_str C) Codec.reservoir_dict_to_int = Ok C).
Proof.
  split; intros x Hx; unfold Codec.labels, Codec.codes in Hx;
    repeat (apply elem_of_cons in Hx as [-> | Hx]; [reflexivity |]);
    by apply elem_of_nil in Hx.
Qed.

(** C9.  [reservoir_dict_to_int] returns code [c] for label [L] exactly
    when [(L, c)] is one of Timesteps/0, Input Current/1, Membrane
    Potential/2, Spikes/3, and [reservoir_dict_to_str] returns [L] for [c]
    exactly then: each function is defined on its four-element domain
    and is the fixed table there. *)
Theorem codec_table L c :
  (Codec.reservoir_dict_to_int L = Ok c ↔ (L, c) ∈ Codec.table) ∧
  (Codec.reservoir_dict_to_str c = Ok L ↔ (L, c) ∈ Codec.table).
Proof.
  unfold Codec.reservoir_dict_to_int, Codec.reservoir_dict_to_str.
  rewrite !dict_getitem_ok. split; [apply str_to_int_lookup | apply int_to_str_lookup].
Qed.

(** C4.  A string that is not one of the four labels makes
    [reservoir_dict_to_int] raise [KeyError] (the spec's UnknownLabel), an
    integer outside 0..3 makes [reservoir_dict_to_str] raise [KeyError]
    (the spec's UnknownCode); so do ["bogus"] and [99]. *)
Theorem codec_unknown :
  (∀ s, s ∉ Codec.labels → Codec.reservoir_dict_to_int s = Raise (KeyError (KStr s))) ∧
  (∀ z, z ∉ Codec.codes → Codec.reservoir_dict_to_str z = Raise (KeyError (KInt z))) ∧
  Codec.reservoir_dict_to_int "bogus" = Raise (KeyError (KStr "bogus")) ∧
  Codec.reservoir_dict_to_str 99 = Raise (KeyError (KInt 99)).
Proof.
  split; [| split; [| split; reflexivity]]; intros x Hx; apply dict_getitem_raise.
  - destruct (Codec.str_to_int !! x) as [c|] eqn:E; [| done].
    apply str_to_int_lookup in E. exfalso. apply Hx.
    unfold Codec.table, Codec.labels in *.
    repeat (apply elem_of_cons in E as [E | E]; [simplify_eq; set_solver |]).
    by apply elem_of_nil in E.
  - destruct (Codec.int_to_str !! x) as [c|] eqn:E; [| done].
    apply int_to_str_lookup in E. exfalso. apply Hx.
    unfold Codec.table, Codec.codes in *.
    repeat (apply elem_of_cons in E as [E | E]; [simplify_eq; set_solver |]).
    by apply elem_of_nil in E.
Qed.

(** ** The three reservoir plots *)

Lemma on_last_snoc {A} (g : A → A) d l a : on_last g d (l ++ [a]) = l ++ [g a].
Proof.
  induction l as [|b l IH]; [reflexivity |].
  simpl. rewrite IH. destruct l; reflexivity.
Qed.

Lemma on_last_last {A} (g : A → A) d l :
  ∃ init, on_last g d l = init ++ [g (List.last l d)].
Proof.
  destruct l as [|a l] using rev_ind.
  - by exists [].
  - exists l. by rewrite on_last_snoc, last_last.
Qed.

(** C7.  [plot_reservoir_data] returns [None] and shows the current
    figure, to whose current axes it has added exactly two lines: the
    first [min 50 (length x_train)] samples of [x_train] and the first
    [min 50 (length y_train)] samples of [y_train], labelled "Reservoir
    input: " and "Reservoir target: " followed by the given names, which
    are the legend entries it adds.  No length makes it fail. *)
Theorem plot_reservoir_data_draws x_train y_train feature target st :
  ∃ older fig init ax,
    plot_reservoir_data x_train y_train feature target st
      = (Ok tt, {| open_figs := []; displayed := displayed st ++ older ++ [fig] |}) ∧
    fig_axes fig = init ++ [ax] ∧
    artists ax = artists (current_axes st) ++
      [Line2D Index (take 50 x_train) (Some ("Reservoir input: " +:+ feature)) None;
       Line2D Index (take 50 y_train) (Some ("Reservoir target: " +:+ target)) None] ∧
    (∃ l, ax_legend ax = Some l ∧
       entries l = omap legend_label (artists (current_axes st)) ++
         ["Reservoir input: " +:+ feature; "Reservoir target: " +:+ target]) ∧
    length (take 50 x_train) = Nat.min 50 (length x_train) ∧
    length (take 50 y_train) = Nat.min 50 (length y_train).
Proof.
  destruct st as [[|f figs] disp].
  - eexists [], _, [], _. split; [reflexivity |]. split; [reflexivity |].
    split; [reflexivity |]. split; [by eexists | split; apply length_take].
  - destruct (on_last_last
      (add_artists
         [Line2D Index (take 50 x_train) (Some ("Reservoir input: " +:+ feature)) None])
      blank_axes (fig_axes f)) as [init Hinit].
    eexists (rev figs), _, init, _. split.
    + unfold plot_reservoir_data, plt_plot, plt_legend, plt_show, gca_apply, bind. simpl.
      rewrite Hinit, !on_last_snoc. reflexivity.
    + split; [reflexivity |].
      split; [cbn; by rewrite <- app_assoc |].
      split; [| split; apply length_take].
      eexists; split; [reflexivity |].
      cbn. by rewrite <- app_assoc, !omap_app.
Qed.

(** C6.  [plot_reservoir_predictions] shows a new figure whose only axes
    holds exactly three lines, in this order: the first [min 70 (length
    x_train)] samples of [x_train] in green, all of [y_pred] in blue, the
    first [min 70 (length y_train)] samples of [y_train] in red.  No
    length makes it fail. *)
Theorem plot_reservoir_predictions_draws x_train y_train y_pred feature target st :
  ∃ fig ax,
    plot_reservoir_predictions x_train y_train y_pred feature target st
      = (Ok tt,
         {| open_figs := [];
            displayed := displayed st ++ rev (open_figs st) ++ [fig] |}) ∧
    fig_axes fig = [ax] ∧
    artists ax =
      [Line2D Index (take 70 x_train) (Some ("Reservoir input: " +:+ feature)) (Some "green");
       Line2D Index y_pred (Some ("Predicted " +:+ target)) (Some "blue");
       Line2D Index (take 70 y_train) (Some ("Actual " +:+ target)) (Some "red")] ∧
    length (take 70 x_train) = Nat.min 70 (length x_train) ∧
    length (take 70 y_train) = Nat.min 70 (length y_train).
Proof.
  eexists _, _. split; [reflexivity |]. split; [reflexivity |].
  split; [reflexivity |]. split; apply length_take.
Qed.

Lemma column_slice k a j : (j < k)%nat → column (slice_columns k a) j = column a j.
Proof.
  intros Hj. unfold column, slice_columns. simpl.
  rewrite <- list_fmap_compose. apply list_fmap_ext. intros _ r _. simpl.
  revert j Hj r. induction k as [|k IH]; intros j Hj r; [lia |].
  destruct r as [|x r]; [by destruct j |]. destruct j as [|j]; [reflexivity |].
  simpl. apply IH. lia.
Qed.

(** C8.  On a grid of [nrows a] rows and [ncols a] columns,
    [plot_reservoir_activations] shows a new figure whose only axes holds
    exactly [min 20 (ncols a)] lines; line [j] has [nrows a] samples, and
    its sample [i] is entry [j] of row [i]. *)
Theorem plot_reservoir_activations_draws (a : ndarray2) st :
  well_shaped a →
  ∃ fig ax,
    plot_reservoir_activations a st
      = (Ok tt,
         {| open_figs := [];
            displayed := displayed st ++ rev (open_figs st) ++ [fig] |}) ∧
    fig_axes fig = [ax] ∧
    length (artists ax) = Nat.min 20 (ncols a) ∧
    ∀ j, (j < Nat.min 20 (ncols a))%nat →
      ∃ y, artists ax !! j = Some (Line2D Index y None None) ∧
        length y = nrows a ∧
        ∀ i r, rows a !! i = Some r → y !! i = r !! j.
Proof.
  intros Hwf. eexists _, _. split; [reflexivity |]. split; [reflexivity |].
  cbn -[Nat.min column]. rewrite length_fmap, length_seq. split; [reflexivity |].
  intros j Hj. exists (column a j). split; [| split].
  - rewrite list_lookup_fmap, lookup_seq_lt by done. cbn -[Nat.min column].
    rewrite column_slice by lia. reflexivity.
  - unfold column, nrows. by rewrite length_fmap.
  - intros i r Hr. unfold column. rewrite list_lookup_fmap, Hr. simpl.
    assert (length r = ncols a) as Hlen.
    { eapply Forall_lookup_1 in Hwf; eauto. }
    destruct (lookup_lt_is_Some_2 r j) as [x Hx]; [lia |].
    rewrite Hx. f_equal. by apply nth_lookup_Some with (d := 0%Q) in Hx.
Qed.

(** ** Further properties of the codec *)

Lemma str_to_int_unknown s : s ∉ Codec.labels → Codec.str_to_int !! s = None.
Proof.
  intros Hs. destruct (Codec.str_to_int !! s) as [c|] eqn:E; [| done].
  apply str_to_int_lookup in E. exfalso. apply Hs.
  unfold Codec.table, Codec.labels in *.
  repeat (apply elem_of_cons in E as [E | E]; [simplify_eq; set_solver |]).
  by apply elem_of_nil in E.
Qed.

Lemma int_to_str_unknown z : z ∉ Codec.codes → Codec.int_to_str !! z = None.
Proof.
  intros Hz. destruct (Codec.int_to_str !! z) as [L|] eqn:E; [| done].
  apply int_to_str_lookup in E. exfalso. apply Hz.
  unfold Codec.table, Codec.codes in *.
  repeat (apply elem_of_cons in E as [E | E]; [simplify_eq; set_solver |]).
  by apply elem_of_nil in E.
Qed.

(** X1.  The two functions are inverse to each other as partial functions:
    [reservoir_dict_to_int] returns [c] for [L] exactly when
    [reservoir_dict_to_str] returns [L] for [c]. *)
Theorem codec_inverse L c :
  Codec.reservoir_dict_to_int L = Ok c ↔ Codec.reservoir_dict_to_str c = Ok L.
Proof.
  unfold Codec.reservoir_dict_to_int, Codec.reservoir_dict_to_str.
  by rewrite !dict_getitem_ok, str_to_int_lookup, int_to_str_lookup.
Qed.

(** X2.  No two labels share a code and no two codes share a label. *)
Theorem codec_injective :
  (∀ L1 L2 c,
     Codec.reservoir_dict_to_int L1 = Ok c →
     Codec.reservoir_dict_to_int L2 = Ok c → L1 = L2) ∧
  (∀ c1 c2 L,
     Codec.reservoir_dict_to_str c1 = Ok L →
     Codec.reservoir_dict_to_str c2 = Ok L → c1 = c2).
Proof.
  unfold Codec.reservoir_dict_to_int, Codec.reservoir_dict_to_str.
  split.
  - intros L1 L2 c H1%dict_getitem_ok%str_to_int_lookup%int_to_str_lookup
      H2%dict_getitem_ok%str_to_int_lookup%int_to_str_lookup. congruence.
  - intros c1 c2 L H1%dict_getitem_ok%int_to_str_lookup%str_to_int_lookup
      H2%dict_getitem_ok%int_to_str_lookup%str_to_int_lookup. congruence.
Qed.

(** X3.  Converting there and back is, for every string and every integer,
    either the identity or the [KeyError] of the first lookup, which
    carries the argument itself: the second lookup never fails. *)
Theorem codec_round_trip_or_error :
  (∀ s,
     and_then (Codec.reservoir_dict_to_int s) Codec.reservoir_dict_to_str
       = if decide (s ∈ Codec.labels) then Ok s else Raise (KeyError (KStr s))) ∧
  (∀ z,
     and_then (Codec.reservoir_dict_to_str z) Codec.reservoir_dict_to_int
       = if decide (z ∈ Codec.codes) then Ok z else Raise (KeyError (KInt z))).
Proof.
  split; intros x; case_decide as Hx.
  - unfold Codec.labels in Hx.
    repeat (apply elem_of_cons in Hx as [-> | Hx]; [reflexivity |]).
    by apply elem_of_nil in Hx.
  - unfold Codec.reservoir_dict_to_int.
    by rewrite (dict_getitem_raise _ _ _ (str_to_int_unknown _ Hx)).
  - unfold Codec.codes in Hx.
    repeat (apply elem_of_cons in Hx as [-> | Hx]; [reflexivity |]).
    by apply elem_of_nil in Hx.
  - unfold Codec.reservoir_dict_to_str.
    by rewrite (dict_getitem_raise _ _ _ (int_to_str_unknown _ Hx)).
Qed.

(** X4.  A code that [reservoir_dict_to_int] returns lies in 0..3, and a
    label that [reservoir_dict_to_str] returns is one of the four, and is
    returned for a code in 0..3 only. *)
Theorem codec_range :
  (∀ L c,
     Codec.reservoir_dict_to_int L = Ok c → (0 ≤ c ≤ 3)%Z ∧ L ∈ Codec.labels) ∧
  (∀ c L,
     Codec.reservoir_dict_to_str c = Ok L → (0 ≤ c ≤ 3)%Z ∧ L ∈ Codec.labels).
Proof.
  unfold Codec.reservoir_dict_to_int, Codec.reservoir_dict_to_str.
  split.
  - intros L c E%dict_getitem_ok%str_to_int_lookup.
    unfold Codec.table, Codec.labels in *.
    repeat (apply elem_of_cons in E as [E | E]; [simplify_eq; split; [lia | set_solver] |]).
    by apply elem_of_nil in E.
  - intros c L E%dict_getitem_ok%int_to_str_lookup.
    unfold Codec.table, Codec.labels in *.
    repeat (apply elem_of_cons in E as [E | E]; [simplify_eq; split; [lia | set_solver] |]).
    by apply elem_of_nil in E.
Qed.

(** ** Further properties of the three reservoir plots *)

(** X5.  [plot_reservoir_data] never looks past sample 50 and
    [plot_reservoir_predictions] never past sample 70 of [x_train] and
    [y_train]: inputs that agree up to there give the same chart and the
    same pyplot state. *)
Theorem later_samples_ignored :
  (∀ x x' y y' feature target st,
     take 50 x = take 50 x' → take 50 y = take 50 y' →
     plot_reservoir_data x y feature target st
       = plot_reservoir_data x' y' feature target st) ∧
  (∀ x x' y y' y_pred feature target st,
     take 70 x = take 70 x' → take 70 y = take 70 y' →
     plot_reservoir_predictions x y y_pred feature target st
       = plot_reservoir_predictions x' y' y_pred feature target st).
Proof.
  split.
  - intros x x' y y' feature target st Hx Hy. unfold plot_reservoir_data.
    by rewrite Hx, Hy.
  - intros x x' y y' y_pred feature target st Hx Hy. unfold plot_reservoir_predictions.
    by rewrite Hx, Hy.
Qed.

(** X6.  [plot_reservoir_activations] never looks past column 20: two grids
    that have as many columns up to 20, and the same first 20 of them,
    give the same chart and the same pyplot state. *)
Theorem later_columns_ignored (a b : ndarray2) st :
  Nat.min 20 (ncols a) = Nat.min 20 (ncols b) →
  (∀ j, (j < 20)%nat → column a j = column b j) →
  plot_reservoir_activations a st = plot_reservoir_activations b st.
Proof.
  intros Hn Hcols.
  assert (Hlines :
    (λ j, Line2D Index (column (slice_columns 20 a) j) None None)
      <$> seq 0 (ncols (slice_columns 20 a))
    = (λ j, Line2D Index (column (slice_columns 20 b) j) None None)
      <$> seq 0 (ncols (slice_columns 20 b))).
  { cbn [ncols slice_columns]. rewrite <- Hn. apply list_fmap_ext.
    intros i j Hj. apply lookup_seq in Hj as [-> Hj]. cbn [Nat.add].
    rewrite !column_slice by lia. by rewrite Hcols by lia. }
  unfold plot_reservoir_activations, plt_plot_columns. by rewrite Hlines.
Qed.

(** X7.  The figure [plot_reservoir_predictions] shows is 10 by 3, has the
    fixed title and x-label and no y-label, and its legend lists the three
    lines in drawing order: input, predicted, actual. *)
Theorem plot_reservoir_predictions_legend x_train y_train y_pred feature target st :
  ∃ fig ax,
    plot_reservoir_predictions x_train y_train y_pred feature target st
      = (Ok tt,
         {| open_figs := [];
            displayed := displayed st ++ rev (open_figs st) ++ [fig] |}) ∧
    figsize fig = Some (10, 3)%Z ∧
    fig_axes fig = [ax] ∧
    title ax = Some "Comparing real data with the reservoirs prediction." ∧
    xlabel ax = Some "Timesteps" ∧
    ylabel ax = None ∧
    ax_legend ax
      = Some {| loc := None;
                entries := ["Reservoir input: " +:+ feature;
                            "Predicted " +:+ target;
                            "Actual " +:+ target] |}.
Proof. eexists _, _. repeat split. Qed.

(** X8.  The figure [plot_reservoir_activations] shows is 10 by 3 and has
    the fixed title, which speaks of 20 neurons however many columns are
    drawn, the fixed axis labels, and no legend. *)
Theorem plot_reservoir_activations_labels (a : ndarray2) st :
  ∃ fig ax,
    plot_reservoir_activations a st
      = (Ok tt,
         {| open_figs := [];
            displayed := displayed st ++ rev (open_figs st) ++ [fig] |}) ∧
    figsize fig = Some (10, 3)%Z ∧
    fig_axes fig = [ax] ∧
    title ax = Some "Activation of 20 reservoir neurons." ∧
    xlabel ax = Some "Timesteps" ∧
    ylabel ax = Some "Reservoir activations" ∧
    ax_legend ax = None.
Proof. eexists _, _. repeat split. Qed.

(** The two plots that open a figure of their own leave none open. *)
Lemma plot_reservoir_activations_closes a st :
  ∃ fig,
    plot_reservoir_activations a st
      = (Ok tt,
         {| open_figs := [];
            displayed := displayed st ++ rev (open_figs st) ++ [fig] |}).
Proof. by eexists. Qed.

Lemma plot_reservoir_predictions_closes x y p feature target st :
  ∃ fig,
    plot_reservoir_predictions x y p feature target st
      = (Ok tt,
         {| open_figs := [];
            displayed := displayed st ++ rev (open_figs st) ++ [fig] |}).
Proof. by eexists. Qed.

(** X9.  Each reservoir plot closes what it shows, so a call of
    [plot_reservoir_data] that follows [plot_reservoir_activations] or
    [plot_reservoir_predictions] draws on a figure of its own, whose one
    axes holds its two lines and nothing else. *)
Theorem plot_reservoir_data_after_plot x y feature target st first :
  (∃ a, first = plot_reservoir_activations a) ∨
  (∃ x' y' p f' t', first = plot_reservoir_predictions x' y' p f' t') →
  ∃ fig1 fig2 ax,
    (first ;; plot_reservoir_data x y feature target)%py st
      = (Ok tt,
         {| open_figs := [];
            displayed := displayed st ++ rev (open_figs st) ++ [fig1; fig2] |}) ∧
    fig_axes fig2 = [ax] ∧
    artists ax =
      [Line2D Index (take 50 x) (Some ("Reservoir input: " +:+ feature)) None;
       Line2D Index (take 50 y) (Some ("Reservoir target: " +:+ target)) None].
Proof.
  intros Hfirst.
  assert (∃ fig1, first st = (Ok tt,
    {| open_figs := []; displayed := displayed st ++ rev (open_figs st) ++ [fig1] |}))
    as [fig1 Hrun].
  { destruct Hfirst as [[a ->] | (x' & y' & p & f' & t' & ->)];
      [apply plot_reservoir_activations_closes | apply plot_reservoir_predictions_closes]. }
  exists fig1. eexists _, _. unfold bind. rewrite Hrun.
  split.
  - unfold plot_reservoir_data, bind, plt_plot, plt_legend, plt_show, gca_apply.
    cbn [open_figs displayed set_open on_head on_last fig_axes set_fig_axes new_figure
      replicate rev app].
    rewrite <- !app_assoc. reflexivity.
  - split; reflexivity.
Qed.

(** [plot_reservoir_data] when a figure [f] is open: it draws on the last
    axes of [f]. *)
Lemma plot_reservoir_data_on_open x y feature target f figs disp :
  ∃ init,
    plot_reservoir_data x y feature target {| open_figs := f :: figs; displayed := disp |}
      = (Ok tt,
         {| open_figs := [];
            displayed := disp ++ rev figs ++
              [set_fig_axes
                 (init ++
                  [add_legend None
                     (add_artists
                        [Line2D Index (take 50 y) (Some ("Reservoir target: " +:+ target))
                           None]
                        (add_artists
                           [Line2D Index (take 50 x) (Some ("Reservoir input: " +:+ feature))
                              None]
                           (List.last (fig_axes f) blank_axes)))]) f] |}).
Proof.
  destruct (on_last_last
    (add_artists [Line2D Index (take 50 x) (Some ("Reservoir input: " +:+ feature)) None])
    blank_axes (fig_axes f)) as [init Hinit].
  exists init.
  unfold plot_reservoir_data, plt_plot, plt_legend, plt_show, gca_apply, bind. simpl.
  rewrite Hinit, !on_last_snoc. reflexivity.
Qed.

(** ** [plot_results] *)

Section PlotResultsFacts.

Variable get_ylim : axes → Q * Q.
Variable list_getitem_tensor : list Q → list bool → result (list Q).

(** *** Running the loop bodies *)

Lemma bind_eq {A B} (m : M A) (k : A → M B) st :
  bind m k st =
    match m st with
    | (Ok a, st') => k a st'
    | (Raise e, st') => (Raise e, st')
    end.
Proof. reflexivity. Qed.

Lemma ret_run {A} (a : A) st : ret a st = (Ok a, st).
Proof. reflexivity. Qed.

Lemma ax_apply_at f figs disp pre ax post h g :
  h = length pre →
  ax_apply h g (grid_state f figs disp (pre ++ ax :: post))
    = (Ok tt, grid_state f figs disp (pre ++ g ax :: post)).
Proof.
  intros ->. unfold ax_apply, grid_state. cbn.
  rewrite list_lookup_middle by done. cbn.
  rewrite insert_app_r_alt by done. by rewrite Nat.sub_diag.
Qed.

Lemma ax_apply_next f figs disp pre ax0 ax post h g :
  h = S (length pre) →
  ax_apply h g (grid_state f figs disp (pre ++ ax0 :: ax :: post))
    = (Ok tt, grid_state f figs disp (pre ++ ax0 :: g ax :: post)).
Proof.
  intros ->. rewrite !(cons_middle ax0), !app_assoc.
  apply ax_apply_at. rewrite length_app. simpl. lia.
Qed.

Lemma ax_get_ylim_next f figs disp pre ax0 ax post h :
  h = S (length pre) →
  ax_get_ylim get_ylim h (grid_state f figs disp (pre ++ ax0 :: ax :: post))
    = (Ok (get_ylim ax), grid_state f figs disp (pre ++ ax0 :: ax :: post)).
Proof.
  intros ->. unfold ax_get_ylim, grid_state. cbn.
  rewrite (cons_middle ax0), app_assoc.
  rewrite list_lookup_middle; [done |]. rewrite length_app. simpl. lia.
Qed.

Lemma axs_item2_in n i j :
  (i < n)%nat → (j < 2)%nat →
  ∀ st, axs_item2 (Axs2D n 2) i j st = (Ok (i * 2 + j)%nat, st).
Proof. intros Hi Hj st. unfold axs_item2. rewrite decide_True by done. reflexivity. Qed.


(** One step of a run: expose the next call, rewrite it with [lem], and
    continue with its result. *)
Ltac run_with lem :=
  rewrite ?bind_eq; rewrite lem by (rewrite ?length_app; simpl; lia); cbv beta iota.

(** A pass of the second branch's loop body over two blank axes: where it
    stops, and what it leaves. *)
Lemma multi_row_run ps n i label time ic mp sp f figs disp done rest :
  length done = (i * 2)%nat → (i < n)%nat →
  multi_row get_ylim list_getitem_tensor ps (Axs2D n 2) i (label, (time, ic, mp, sp))
    (grid_state f figs disp (done ++ blank_axes :: blank_axes :: rest)) =
  match ps !! label with
  | None =>
      (Raise (KeyError (KStr label)),
       grid_state f figs disp
         (done ++ input_axes Index label ic :: membrane_plotted Index label mp :: rest))
  | Some p =>
      match and_then (bool_method sp) (getitem_mask list_getitem_tensor time) with
      | Raise e =>
          (Raise e,
           grid_state f figs disp
             (done ++ input_axes Index label ic :: membrane_axes_multi label mp p :: rest))
      | Ok spike_times =>
          (Ok tt,
           grid_state f figs disp
             (done ++ input_axes Index label ic
                :: with_spike_lines get_ylim (membrane_axes_multi label mp p) spike_times 1
                :: rest))
      end
  end.
Proof.
  intros Hlen Hi. unfold multi_row, add_spike_indicators, param_sets_getitem, ax_set_title,
    ax_set_xlabel, ax_set_ylabel, ax_plot, ax_axhline, ax_legend_call, ax_vlines. cbv zeta.
  do 4 (run_with axs_item2_in; run_with ax_apply_at).
  do 2 (run_with axs_item2_in; run_with ax_apply_next).
  run_with axs_item2_in. rewrite bind_eq. unfold lift at 1, dict_getitem.
  destruct (ps !! label) as [p|]; cbv beta iota; [| reflexivity].
  run_with ax_apply_next.
  do 4 (run_with axs_item2_in; run_with ax_apply_next).
  rewrite bind_eq. unfold lift at 1.
  destruct (and_then (bool_method sp) (getitem_mask list_getitem_tensor time))
    as [spike_times|e]; cbv beta iota; [| reflexivity].
  do 2 (run_with axs_item2_in).
  run_with ax_get_ylim_next.
  run_with axs_item2_in.
  run_with ax_get_ylim_next.
  rewrite ax_apply_next by lia. reflexivity.
Qed.

Lemma ax_apply_0 f figs disp ax post g :
  ax_apply 0 g (grid_state f figs disp (ax :: post))
    = (Ok tt, grid_state f figs disp (g ax :: post)).
Proof. by apply (ax_apply_at _ _ _ []). Qed.

Lemma ax_apply_1 f figs disp ax0 ax post g :
  ax_apply 1 g (grid_state f figs disp (ax0 :: ax :: post))
    = (Ok tt, grid_state f figs disp (ax0 :: g ax :: post)).
Proof. by apply (ax_apply_next _ _ _ []). Qed.

Lemma ax_get_ylim_1 f figs disp ax0 ax post :
  ax_get_ylim get_ylim 1 (grid_state f figs disp (ax0 :: ax :: post))
    = (Ok (get_ylim ax), grid_state f figs disp (ax0 :: ax :: post)).
Proof. by apply (ax_get_ylim_next _ _ _ []). Qed.

(** The same for the single-plot branch, which can also stop at a
    [plot(x, y)] whose arguments differ in length. *)
Lemma single_row_run ps i label time ic mp sp f figs disp rest :
  single_row get_ylim list_getitem_tensor ps 0 1 i (label, (time, ic, mp, sp))
    (grid_state f figs disp (blank_axes :: blank_axes :: rest)) =
  if decide (length (samples time) = length (samples ic)) then
    if decide (length (samples time) = length (samples mp)) then
      match ps !! label with
      | None =>
          (Raise (KeyError (KStr label)),
           grid_state f figs disp
             (input_axes (XValues (samples time)) label ic
                :: membrane_plotted (XValues (samples time)) label mp :: rest))
      | Some p =>
          match and_then (bool_method sp) (getitem_mask list_getitem_tensor time) with
          | Raise e =>
              (Raise e,
               grid_state f figs disp
                 (input_axes (XValues (samples time)) label ic
                    :: membrane_axes_single label time mp p :: rest))
          | Ok spike_times =>
              (Ok tt,
               grid_state f figs disp
                 (input_axes (XValues (samples time)) label ic
                    :: with_spike_lines get_ylim (membrane_axes_single label time mp p)
                         spike_times (1 # 2) :: rest))
          end
      end
    else
      (Raise ValueError,
       grid_state f figs disp
         (input_axes (XValues (samples time)) label ic
            :: set_title (label +:+ " - Membrane Potential") blank_axes :: rest))
  else
    (Raise ValueError,
     grid_state f figs disp
       (set_title (label +:+ " - Input Current") blank_axes :: blank_axes :: rest)).
Proof.
  unfold single_row, add_spike_indicators, param_sets_getitem, ax_set_title,
    ax_set_xlabel, ax_set_ylabel, ax_plot_xy, ax_axhline, ax_legend_call, ax_vlines.
  run_with ax_apply_0.
  destruct (decide (length (samples time) = length (samples ic))) as [_|_]; [| reflexivity].
  do 4 (first [run_with ax_apply_0 | run_with ax_apply_1]).
  destruct (decide (length (samples time) = length (samples mp))) as [_|_]; [| reflexivity].
  run_with ax_apply_1.
  rewrite bind_eq. unfold lift at 1, dict_getitem.
  destruct (ps !! label) as [p|]; cbv beta iota; [| reflexivity].
  do 4 (run_with ax_apply_1).
  rewrite bind_eq. unfold lift at 1.
  destruct (and_then (bool_method sp) (getitem_mask list_getitem_tensor time))
    as [spike_times|e]; cbv beta iota; [| reflexivity].
  do 2 (run_with @ret_run). run_with ax_get_ylim_1.
  run_with @ret_run. run_with ax_get_ylim_1.
  rewrite ax_apply_1. reflexivity.
Qed.

(** *** Running the loops *)

(** Move the two axes of a finished row from the rows to do to the rows
    done. *)
Ltac next_row :=
  rewrite (cons_middle (input_axes _ _ _)), (cons_middle (with_spike_lines _ _ _ _)),
    !app_assoc;
  rewrite <- (app_assoc _ (replicate _ _)).

Lemma multi_loop_ok ps n rows : ∀ k f figs disp done rest st',
  length done = (k * 2)%nat → (k + length rows ≤ n)%nat →
  for_enumerate (multi_row get_ylim list_getitem_tensor ps (Axs2D n 2)) k rows
      (grid_state f figs disp (done ++ replicate (length rows * 2) blank_axes ++ rest))
    = (Ok tt, st') ↔
  ∃ axs,
    rows_drawn get_ylim list_getitem_tensor ps rows axs ∧
    st' = grid_state f figs disp (done ++ axs ++ rest).
Proof.
  induction rows as [|[label [[[time ic] mp] sp]] rows IH];
    intros k f figs disp done rest st' Hlen Hk.
  - simpl. unfold ret. split.
    + intros [= <-]. exists []. split; [constructor | done].
    + intros (axs & Hd & ->). inversion Hd. done.
  - simpl in Hk. cbn [for_enumerate length Nat.mul Nat.add replicate app].
    rewrite bind_eq, multi_row_run by (done || lia).
    split.
    + destruct (ps !! label) as [p|] eqn:Hp; [| done].
      destruct (and_then _ _) as [spike_times|e] eqn:Hs; [| done].
      next_row.
      intros (axs & Hd & ->)%IH; [| rewrite !length_app; simpl; lia | lia].
      eexists. split; [by econstructor |]. by rewrite <- !app_assoc.
    + intros (axs & Hd & ->).
      inversion Hd as [|? ? ? ? ? p spike_times ? axs' Hp Hs Hd']; subst.
      rewrite Hp, Hs.
      next_row.
      apply IH; [rewrite !length_app; simpl; lia | lia |].
      exists axs'. split; [done |]. by rewrite <- !app_assoc.
Qed.

Lemma multi_loop_grid ps n rows : ∀ k f figs disp done rest,
  length done = (k * 2)%nat → (k + length rows ≤ n)%nat →
  ∃ r axs,
    for_enumerate (multi_row get_ylim list_getitem_tensor ps (Axs2D n 2)) k rows
        (grid_state f figs disp (done ++ replicate (length rows * 2) blank_axes ++ rest))
      = (r, grid_state f figs disp axs).
Proof.
  induction rows as [|[label [[[time ic] mp] sp]] rows IH];
    intros k f figs disp done rest Hlen Hk.
  - by eexists _, _.
  - simpl in Hk. cbn [for_enumerate length Nat.mul Nat.add replicate app].
    rewrite bind_eq, multi_row_run by (done || lia).
    destruct (ps !! label) as [p|]; [| by eexists _, _].
    destruct (and_then _ _) as [spike_times|e]; [| by eexists _, _].
    next_row.
    apply IH; [rewrite !length_app; simpl; lia | lia].
Qed.

Lemma multi_loop_keyerror ps n label time ic mp sp post pre axs :
  rows_drawn get_ylim list_getitem_tensor ps pre axs → ps !! label = None →
  ∀ k f figs disp done rest,
  length done = (k * 2)%nat →
  (k + length (pre ++ (label, (time, ic, mp, sp)) :: post) ≤ n)%nat →
  for_enumerate (multi_row get_ylim list_getitem_tensor ps (Axs2D n 2)) k
      (pre ++ (label, (time, ic, mp, sp)) :: post)
      (grid_state f figs disp
         (done ++ replicate (length (pre ++ (label, (time, ic, mp, sp)) :: post) * 2)
                    blank_axes ++ rest))
    = (Raise (KeyError (KStr label)),
       grid_state f figs disp
         (done ++ axs ++ input_axes Index label ic :: membrane_plotted Index label mp
            :: replicate (length post * 2) blank_axes ++ rest)).
Proof.
  intros Hd Hnone.
  induction Hd as [|label' time' ic' mp' sp' p spike_times rows axs Hp Hs Hd IH];
    intros k f figs disp done rest Hlen Hk.
  - simpl in Hk. cbn [for_enumerate length Nat.mul Nat.add replicate app].
    rewrite bind_eq, multi_row_run by (done || lia). by rewrite Hnone.
  - simpl in Hk. cbn [for_enumerate length Nat.mul Nat.add replicate app].
    rewrite bind_eq, multi_row_run by (done || lia). rewrite Hp, Hs.
    next_row.
    cbv beta iota. rewrite IH by (rewrite ?length_app in *; simpl in *; lia).
    by rewrite <- !app_assoc.
Qed.

(** *** Running [plot_results] *)

Lemma plot_results_multi results ps st :
  (2 ≤ length results)%nat →
  plot_results get_ylim list_getitem_tensor results ps st =
    match for_enumerate
            (multi_row get_ylim list_getitem_tensor ps (Axs2D (length results) 2)) 0 results
            (grid_state (new_figure (Some (10, 3 * Z.of_nat (length results))%Z) 0)
               (open_figs st) (displayed st)
               ([] ++ replicate (length results * 2) blank_axes ++ [])) with
    | (Ok _, st1) => (plt_tight_layout ;; plt_show) st1
    | (Raise e, st1) => (Raise e, st1)
    end.
Proof.
  intros Hn. unfold plot_results. cbv zeta. rewrite bind_eq. unfold plt_subplots.
  rewrite decide_False by lia. cbv beta iota. rewrite !decide_False by lia.
  rewrite app_nil_r. rewrite bind_eq. reflexivity.
Qed.

Lemma plot_results_single item ps st :
  plot_results get_ylim list_getitem_tensor [item] ps st =
    match single_row get_ylim list_getitem_tensor ps 0 1 0 item
            (grid_state (new_figure (Some (10, 3)%Z) 0) (open_figs st) (displayed st)
               [blank_axes; blank_axes]) with
    | (Ok _, st1) => (plt_tight_layout ;; plt_show) st1
    | (Raise e, st1) => (Raise e, st1)
    end.
Proof.
  unfold plot_results. cbv zeta. rewrite bind_eq.
  change (plt_subplots (length [item]) 2 _ st)
    with (Ok (Axs1D 2), grid_state (new_figure (Some (10, 3)%Z) 0) (open_figs st)
            (displayed st) [blank_axes; blank_axes]).
  cbv beta iota. rewrite decide_True by done.
  rewrite !bind_eq. change (axs_item (Axs1D 2) 0 ?s) with (Ok 0%nat, s). cbv beta iota.
  rewrite !bind_eq. change (axs_item (Axs1D 2) 1 ?s) with (Ok 1%nat, s). cbv beta iota.
  cbn [for_enumerate]. rewrite bind_eq.
  destruct (single_row _ _ _ _ _ _ _ _) as [[[]|e] st1]; reflexivity.
Qed.

Lemma finish_grid size figs disp axs :
  (plt_tight_layout ;; plt_show) (grid_state (new_figure (Some size) 0) figs disp axs)
    = (Ok tt, shown {| open_figs := figs; displayed := disp |} size axs).
Proof. reflexivity. Qed.

Lemma plot_results_multi_ok results ps st st' :
  (2 ≤ length results)%nat →
  plot_results get_ylim list_getitem_tensor results ps st = (Ok tt, st') ↔
  ∃ axs, rows_drawn get_ylim list_getitem_tensor ps results axs ∧
    st' = shown st (10, 3 * Z.of_nat (length results))%Z axs.
Proof.
  intros Hn. rewrite plot_results_multi by done. destruct st as [figs disp]. split.
  - destruct (for_enumerate _ _ _ _) as [[[]|e] st1] eqn:Hloop; [| done].
    apply multi_loop_ok in Hloop as (axs & Hd & ->); [| done | lia].
    rewrite app_nil_r, finish_grid. intros [= <-]. by exists axs.
  - intros (axs & Hd & ->).
    pose (f := new_figure (Some (10, 3 * Z.of_nat (length results))%Z) 0).
    assert (Hloop : ∃ axs', rows_drawn get_ylim list_getitem_tensor ps results axs' ∧
      grid_state f figs disp ([] ++ axs ++ []) = grid_state f figs disp ([] ++ axs' ++ []))
      by eauto.
    subst f.
    apply (multi_loop_ok ps (length results) results 0) in Hloop; [| done | lia].
    cbn [open_figs displayed]. rewrite Hloop. by rewrite app_nil_r, finish_grid.
Qed.

Lemma plot_results_multi_fails results ps st r st' :
  (2 ≤ length results)%nat →
  plot_results get_ylim list_getitem_tensor results ps st = (r, st') →
  r = Ok tt ∨ displayed st' = displayed st.
Proof.
  intros Hn. rewrite plot_results_multi by done.
  destruct (multi_loop_grid ps (length results) results 0
    (new_figure (Some (10, 3 * Z.of_nat (length results))%Z) 0) (open_figs st) (displayed st)
    [] []) as (r1 & axs & ->); [done | lia |].
  destruct r1 as [[]|e].
  - rewrite finish_grid. intros [= <- _]. by left.
  - intros [= _ <-]. by right.
Qed.

Lemma plot_results_empty ps st :
  plot_results get_ylim list_getitem_tensor [] ps st
    = (Raise ValueError, created st (10, 0)%Z []).
Proof. reflexivity. Qed.

Lemma rows_drawn_lookup ps rows axs i label time ic mp sp :
  rows_drawn get_ylim list_getitem_tensor ps rows axs →
  rows !! i = Some (label, (time, ic, mp, sp)) →
  ∃ p spike_times,
    ps !! label = Some p ∧
    and_then (bool_method sp) (getitem_mask list_getitem_tensor time) = Ok spike_times ∧
    axs !! (2 * i)%nat = Some (input_axes Index label ic) ∧
    axs !! (2 * i + 1)%nat
      = Some (with_spike_lines get_ylim (membrane_axes_multi label mp p) spike_times 1).
Proof.
  intros Hd. revert i.
  induction Hd as [|label' time' ic' mp' sp' p spike_times rows axs Hp Hs Hd IH];
    intros i Hi; [done |].
  destruct i as [|i].
  - simpl in Hi. simplify_eq. by exists p, spike_times.
  - simpl in Hi. destruct (IH i Hi) as (p' & st' & ? & ? & HL & HR).
    exists p', st'. repeat split; try done.
    + replace (2 * S i)%nat with (S (S (2 * i))) by lia. done.
    + replace (2 * S i + 1)%nat with (S (S (2 * i + 1))) by lia. done.
Qed.

Lemma rows_drawn_length ps rows axs :
  rows_drawn get_ylim list_getitem_tensor ps rows axs → length axs = (2 * length rows)%nat.
Proof. induction 1; simpl; lia. Qed.

Lemma plot_results_single_ok label time ic mp sp ps st st' :
  plot_results get_ylim list_getitem_tensor [(label, (time, ic, mp, sp))] ps st
    = (Ok tt, st') ↔
  ∃ p spike_times,
    length (samples time) = length (samples ic) ∧
    length (samples time) = length (samples mp) ∧
    ps !! label = Some p ∧
    and_then (bool_method sp) (getitem_mask list_getitem_tensor time) = Ok spike_times ∧
    st' = shown st (10, 3)%Z
      [input_axes (XValues (samples time)) label ic;
       with_spike_lines get_ylim (membrane_axes_single label time mp p) spike_times (1 # 2)].
Proof.
  rewrite plot_results_single, single_row_run. destruct st as [figs disp].
  destruct (decide (length (samples time) = length (samples ic))) as [H1|H1];
    [| split; [done | by intros (? & ? & ? & _)]].
  destruct (decide (length (samples time) = length (samples mp))) as [H2|H2];
    [| split; [done | by intros (? & ? & ? & ? & _)]].
  destruct (ps !! label) as [p|];
    [| split; [done | by intros (? & ? & ? & ? & ? & _)]].
  destruct (and_then _ _) as [spike_times|e];
    [| split; [done | by intros (? & ? & ? & ? & ? & ? & _)]].
  rewrite finish_grid. split.
  - intros [= <-]. by exists p, spike_times.
  - intros (p' & spike_times' & _ & _ & [= <-] & [= <-] & ->). done.
Qed.

Lemma plot_results_ok_inv results ps st st' :
  plot_results get_ylim list_getitem_tensor results ps st = (Ok tt, st') →
  ∃ axs,
    st' = shown st (10, 3 * Z.of_nat (length results))%Z axs ∧
    ∀ i label time ic mp sp,
      results !! i = Some (label, (time, ic, mp, sp)) →
      ∃ p spike_times,
        ps !! label = Some p ∧
        and_then (bool_method sp) (getitem_mask list_getitem_tensor time) = Ok spike_times ∧
        axs !! (2 * i)%nat
          = Some (input_axes (abscissa (bool_decide (length results = 1%nat)) time)
                    label ic) ∧
        axs !! (2 * i + 1)%nat
          = Some (with_spike_lines get_ylim
                    (membrane_axes (bool_decide (length results = 1%nat)) label time mp p)
                    spike_times (marker_width (bool_decide (length results = 1%nat)))).
Proof.
  intros Hrun. destruct results as [|item [|item' results]].
  - by rewrite plot_results_empty in Hrun.
  - destruct item as [label [[[time ic] mp] sp]].
    apply plot_results_single_ok in Hrun as (p & spike_times & _ & _ & Hp & Hs & ->).
    eexists. split; [reflexivity |].
    intros [|i] ? ? ? ? ? Hi; [| done]. simpl in Hi. simplify_eq.
    by exists p, spike_times.
  - apply plot_results_multi_ok in Hrun as (axs & Hd & ->); [| simpl; lia].
    exists axs. split; [reflexivity |].
    intros i label time ic mp sp Hi.
    by apply (rows_drawn_lookup _ _ _ _ _ _ _ _ _ Hd) in Hi.
Qed.

Lemma row_ready_lookup results ps st st' item :
  plot_results get_ylim list_getitem_tensor results ps st = (Ok tt, st') →
  item ∈ results → row_ready list_getitem_tensor ps item.
Proof.
  intros (axs & _ & Hrows)%plot_results_ok_inv [i Hi]%list_elem_of_lookup.
  destruct item as [label [[[time ic] mp] sp]].
  destruct (Hrows _ _ _ _ _ _ Hi) as (p & spike_times & Hp & Hs & _).
  split; [by exists p | by exists spike_times].
Qed.

Lemma rows_drawn_ready ps rows :
  Forall (row_ready list_getitem_tensor ps) rows →
  ∃ axs, rows_drawn get_ylim list_getitem_tensor ps rows axs.
Proof.
  induction 1 as [|[label [[[time ic] mp] sp]] rows [[p Hp] [spike_times Hs]] _ [axs IH]].
  - exists []. constructor.
  - eexists. by econstructor.
Qed.

(** A call on ready rows returns: the hypothesis of the claims below is
    met by every well-formed input. *)
Lemma plot_results_returns results ps st :
  results ≠ [] →
  Forall (row_ready list_getitem_tensor ps) results →
  (∀ label time ic mp sp,
     results = [(label, (time, ic, mp, sp))] →
     length (samples time) = length (samples ic) ∧
     length (samples time) = length (samples mp)) →
  ∃ st', plot_results get_ylim list_getitem_tensor results ps st = (Ok tt, st').
Proof.
  intros Hne Hready Hshape. destruct results as [|item [|item' results]]; [done | |].
  - destruct item as [label [[[time ic] mp] sp]].
    destruct (Hshape _ _ _ _ _ eq_refl) as [H1 H2].
    apply Forall_cons_1 in Hready as [[[p Hp] [spike_times Hs]] _].
    eexists. apply plot_results_single_ok. by exists p, spike_times.
  - destruct (rows_drawn_ready _ _ Hready) as [axs Hd].
    eexists. apply plot_results_multi_ok; [simpl; lia |]. by exists axs.
Qed.

Lemma plot_results_fails results ps st r st' :
  plot_results get_ylim list_getitem_tensor results ps st = (r, st') →
  r = Ok tt ∨ displayed st' = displayed st.
Proof.
  destruct results as [|item [|item' results]].
  - rewrite plot_results_empty. intros [= _ <-]. by right.
  - destruct item as [label [[[time ic] mp] sp]].
    rewrite plot_results_single, single_row_run.
    destruct (decide (_ = length (samples ic))) as [_|_]; [| intros [= _ <-]; by right].
    destruct (decide (_ = length (samples mp))) as [_|_]; [| intros [= _ <-]; by right].
    destruct (ps !! label) as [p|]; [| intros [= _ <-]; by right].
    destruct (and_then _ _) as [spike_times|e]; [| intros [= _ <-]; by right].
    rewrite finish_grid. intros [= <- _]. by left.
  - apply plot_results_multi_fails. simpl. lia.
Qed.

Lemma masked_select_filter t s :
  masked_select t (truthy <$> s) = (filter (λ ts, truthy ts.2 = true) (zip t s)).*1.
Proof.
  revert s. induction t as [|x t IH]; intros [|y s]; try reflexivity.
  simpl. rewrite filter_cons. simpl. destruct (truthy y) eqn:Hy.
  - rewrite decide_True by done. simpl. by rewrite IH.
  - rewrite decide_False by done. apply IH.
Qed.

(** *** The claims about [plot_results] *)

Lemma last_shown st size axs :
  list.last (displayed (shown st size axs))
    = Some {| figsize := Some size; fig_axes := axs; tight := true |}.
Proof. unfold shown. cbn [displayed]. by rewrite !app_assoc, last_snoc. Qed.

(** C3.  After a call with exactly one entry, the input-current axes of
    the figure shown holds one line, of [input_current] against the
    values of [time]; after a call with two or more entries, the
    input-current axes of every row holds one line, of [input_current]
    against the sample index. *)
Theorem input_current_abscissa :
  (∀ label time ic mp sp ps st st',
     plot_results get_ylim list_getitem_tensor [(label, (time, ic, mp, sp))] ps st
       = (Ok tt, st') →
     ∃ fig ax,
       list.last (displayed st') = Some fig ∧
       fig_axes fig !! 0%nat = Some ax ∧
       title ax = Some (label +:+ " - Input Current") ∧
       artists ax = [Line2D (XValues (samples time)) (samples ic) None None]) ∧
  (∀ results ps st st',
     (2 ≤ length results)%nat →
     plot_results get_ylim list_getitem_tensor results ps st = (Ok tt, st') →
     ∃ fig,
       list.last (displayed st') = Some fig ∧
       ∀ i label time ic mp sp,
         results !! i = Some (label, (time, ic, mp, sp)) →
         ∃ ax,
           fig_axes fig !! (2 * i)%nat = Some ax ∧
           title ax = Some (label +:+ " - Input Current") ∧
           artists ax = [Line2D Index (samples ic) None None]).
Proof.
  split.
  - intros label time ic mp sp ps st st' (axs & -> & Hrows)%plot_results_ok_inv.
    destruct (Hrows 0%nat _ _ _ _ _ eq_refl) as (p & spike_times & _ & _ & HL & _).
    eexists _, _. split; [apply last_shown |]. split; [exact HL |]. done.
  - intros results ps st st' Hn (axs & -> & Hrows)%plot_results_ok_inv.
    eexists. split; [apply last_shown |].
    intros i label time ic mp sp Hi.
    destruct (Hrows _ _ _ _ _ _ Hi) as (p & spike_times & _ & _ & HL & _).
    rewrite bool_decide_eq_false_2 in HL by lia.
    eexists. split; [exact HL |]. done.
Qed.

(** C5, as the code has it.  After a call that returns, in either branch,
    the membrane-potential axes of every row holds what it held [before]
    the indicators, which were none, and after that one set of vertical
    lines: at the values that [time[spikes.bool()]] gave, from the lower to
    the upper y-limit that the axes had [before].  When [time] and
    [spikes] are tensors, these are the values of [time] whose entry of
    [spikes] is truthy, in order. *)
Theorem spike_markers results ps st st' :
  plot_results get_ylim list_getitem_tensor results ps st = (Ok tt, st') →
  ∃ fig,
    list.last (displayed st') = Some fig ∧
    ∀ i label time ic mp sp,
      results !! i = Some (label, (time, ic, mp, sp)) →
      ∃ ax before spike_times linewidth,
        fig_axes fig !! (2 * i + 1)%nat = Some ax ∧
        and_then (bool_method sp) (getitem_mask list_getitem_tensor time)
          = Ok spike_times ∧
        artists ax = artists before ++
          [VLines spike_times (fst (get_ylim before)) (snd (get_ylim before))
             "r" linewidth (1 # 2)] ∧
        title ax = Some (label +:+ " - Membrane Potential") ∧
        title before = title ax ∧
        xlabel before = xlabel ax ∧
        ylabel before = ylabel ax ∧
        ax_legend before = ax_legend ax ∧
        Forall (λ a, ∀ x lo hi c w al, a ≠ VLines x lo hi c w al) (artists before) ∧
        (∀ t s,
           time = Tensor t → sp = Tensor s →
           length t = length s ∧
           spike_times = (filter (λ ts, truthy ts.2 = true) (zip t s)).*1).
Proof.
  intros (axs & -> & Hrows)%plot_results_ok_inv.
  eexists. split; [apply last_shown |].
  intros i label time ic mp sp Hi.
  destruct (Hrows _ _ _ _ _ _ Hi) as (p & spike_times & _ & Hs & _ & HR).
  exists (with_spike_lines get_ylim
            (membrane_axes (bool_decide (length results = 1%nat)) label time mp p)
            spike_times (marker_width (bool_decide (length results = 1%nat)))),
    (membrane_axes (bool_decide (length results = 1%nat)) label time mp p),
    spike_times, (marker_width (bool_decide (length results = 1%nat))).
  split; [exact HR |]. split; [exact Hs |]. split; [reflexivity |].
  split; [by destruct (bool_decide _) |].
  do 4 (split; [reflexivity |]).
  split; [destruct (bool_decide _); cbn; repeat constructor; done |].
  intros t s -> ->. cbn in Hs. rewrite length_fmap in Hs.
  case_decide as Hlen; [| done]. injection Hs as <-.
  split; [done | apply masked_select_filter].
Qed.

(** C2, as the code has it.  A call with a label that [param_sets] lacks
    raises and shows nothing.  When the rows before the first such label
    are ready, and, in a call with that entry alone, [time] is as long as
    [input_current] and [membrane_potential], the error is the
    [KeyError] of that label, and it comes after the figure was made and
    the row's input current and membrane potential were plotted on it. *)
Theorem missing_params_fail_unshown :
  (∀ results ps st,
     (∃ label s, (label, s) ∈ results ∧ ps !! label = None) →
     ∃ e st',
       plot_results get_ylim list_getitem_tensor results ps st = (Raise e, st') ∧
       displayed st' = displayed st) ∧
  (∀ pre label time ic mp sp post ps st,
     ps !! label = None →
     Forall (row_ready list_getitem_tensor ps) pre →
     (pre = [] → post = [] →
      length (samples time) = length (samples ic) ∧
      length (samples time) = length (samples mp)) →
     ∃ fig axL axR x,
       plot_results get_ylim list_getitem_tensor
           (pre ++ (label, (time, ic, mp, sp)) :: post) ps st
         = (Raise (KeyError (KStr label)),
            {| open_figs := fig :: open_figs st; displayed := displayed st |}) ∧
       fig_axes fig !! (2 * length pre)%nat = Some axL ∧
       artists axL = [Line2D x (samples ic) None None] ∧
       fig_axes fig !! (2 * length pre + 1)%nat = Some axR ∧
       artists axR = [Line2D x (samples mp) None None]).
Proof.
  split.
  - intros results ps st (label & s & Hin & Hnone).
    destruct (plot_results _ _ results ps st) as [[[]|e] st'] eqn:Hrun.
    + destruct s as [[[time ic] mp] sp].
      destruct (row_ready_lookup _ _ _ _ _ Hrun Hin) as [[p Hp] _]. congruence.
    + exists e, st'. split; [done |].
      by destruct (plot_results_fails _ _ _ _ _ Hrun).
  - intros pre label time ic mp sp post ps st Hnone Hpre Hshape.
    destruct (decide (pre = [] ∧ post = [])) as [[-> ->]|Hmulti].
    + destruct (Hshape eq_refl eq_refl) as [H1 H2].
      cbn [app]. rewrite plot_results_single, single_row_run, Hnone.
      rewrite !decide_True by done.
      eexists _, _, _, _. split; [reflexivity |]. done.
    + destruct (rows_drawn_ready _ _ Hpre) as [axs Hd].
      assert (2 ≤ length (pre ++ (label, (time, ic, mp, sp)) :: post))%nat as Hn.
      { rewrite length_app. simpl. destruct pre, post; simpl; try lia. exfalso; auto. }
      rewrite plot_results_multi by done.
      rewrite (multi_loop_keyerror _ _ _ _ _ _ _ _ _ _ Hd Hnone 0) by (done || lia).
      pose proof (rows_drawn_length _ _ _ Hd) as Hlen.
      eexists _, _, _, _. split; [reflexivity |]. cbn [fig_axes set_fig_axes app].
      split; [by apply list_lookup_middle |]. split; [reflexivity |].
      split; [rewrite (cons_middle (input_axes _ _ _)), app_assoc;
        apply list_lookup_middle; rewrite length_app; simpl; lia | reflexivity].
Qed.

(** *** Further properties of [plot_results] *)

(** A loop of the second branch that reaches a row whose label has
    parameters but whose [time[spikes.bool()]] raises. *)
Lemma multi_loop_spikes_raise ps n label time ic mp sp post pre axs p e :
  rows_drawn get_ylim list_getitem_tensor ps pre axs →
  ps !! label = Some p →
  and_then (bool_method sp) (getitem_mask list_getitem_tensor time) = Raise e →
  ∀ k f figs disp done rest,
  length done = (k * 2)%nat →
  (k + length (pre ++ (label, (time, ic, mp, sp)) :: post) ≤ n)%nat →
  for_enumerate (multi_row get_ylim list_getitem_tensor ps (Axs2D n 2)) k
      (pre ++ (label, (time, ic, mp, sp)) :: post)
      (grid_state f figs disp
         (done ++ replicate (length (pre ++ (label, (time, ic, mp, sp)) :: post) * 2)
                    blank_axes ++ rest))
    = (Raise e,
       grid_state f figs disp
         (done ++ axs ++ input_axes Index label ic :: membrane_axes_multi label mp p
            :: replicate (length post * 2) blank_axes ++ rest)).
Proof.
  intros Hd Hsome Hraise.
  induction Hd as [|label' time' ic' mp' sp' p' spike_times rows axs Hp Hs Hd IH];
    intros k f figs disp done rest Hlen Hk.
  - simpl in Hk. cbn [for_enumerate length Nat.mul Nat.add replicate app].
    rewrite bind_eq, multi_row_run by (done || lia). by rewrite Hsome, Hraise.
  - simpl in Hk. cbn [for_enumerate length Nat.mul Nat.add replicate app].
    rewrite bind_eq, multi_row_run by (done || lia). rewrite Hp, Hs.
    next_row.
    cbv beta iota. rewrite IH by (rewrite ?length_app in *; simpl in *; lia).
    by rewrite <- !app_assoc.
Qed.

(** The state a call leaves when it raises: the figure it made is still
    open, and is the only change. *)
Lemma plot_results_raise_state results ps st e st' :
  plot_results get_ylim list_getitem_tensor results ps st = (Raise e, st') →
  ∃ axs, st' = created st (10, 3 * Z.of_nat (length results))%Z axs.
Proof.
  destruct results as [|item [|item' results]].
  - rewrite plot_results_empty. intros [= _ <-]. by eexists.
  - destruct item as [label [[[time ic] mp] sp]].
    rewrite plot_results_single, single_row_run.
    destruct (decide (_ = length (samples ic))) as [_|_]; [| intros [= _ <-]; by eexists].
    destruct (decide (_ = length (samples mp))) as [_|_]; [| intros [= _ <-]; by eexists].
    destruct (ps !! label) as [p|]; [| intros [= _ <-]; by eexists].
    destruct (and_then _ _) as [spike_times|e']; [| intros [= _ <-]; by eexists].
    by rewrite finish_grid.
  - rewrite plot_results_multi by (simpl; lia).
    destruct (multi_loop_grid ps (length (item :: item' :: results)) (item :: item' :: results)
      0 (new_figure (Some (10, 3 * Z.of_nat (length (item :: item' :: results)))%Z) 0)
      (open_figs st) (displayed st) [] []) as (r1 & axs & ->); [done | lia |].
    destruct r1 as [[]|e1]; [by rewrite finish_grid |].
    intros [= _ <-]. by exists axs.
Qed.

(** A call that reaches a row whose label has parameters but whose
    [time[spikes.bool()]] raises. *)
Lemma plot_results_spikes_raise pre label time ic mp sp post ps st p e :
  Forall (row_ready list_getitem_tensor ps) pre →
  ps !! label = Some p →
  and_then (bool_method sp) (getitem_mask list_getitem_tensor time) = Raise e →
  (pre = [] → post = [] →
   length (samples time) = length (samples ic) ∧
   length (samples time) = length (samples mp)) →
  ∃ axs,
    length axs = (2 * length pre)%nat ∧
    plot_results get_ylim list_getitem_tensor
        (pre ++ (label, (time, ic, mp, sp)) :: post) ps st
      = (Raise e,
         created st
           (10, 3 * Z.of_nat (length (pre ++ (label, (time, ic, mp, sp)) :: post)))%Z
           (axs ++ input_axes (abscissa (bool_decide (pre = [] ∧ post = [])) time) label ic
              :: membrane_axes (bool_decide (pre = [] ∧ post = [])) label time mp p
              :: replicate (length post * 2) blank_axes)).
Proof.
  intros Hpre Hsome Hraise Hshape.
  destruct (decide (pre = [] ∧ post = [])) as [[-> ->]|Hmulti].
  - destruct (Hshape eq_refl eq_refl) as [H1 H2]. exists []. split; [done |].
    cbn [app]. rewrite plot_results_single, single_row_run, Hsome, Hraise.
    rewrite !decide_True by done. reflexivity.
  - destruct (rows_drawn_ready _ _ Hpre) as [axs Hd]. exists axs.
    split; [by eapply rows_drawn_length |].
    assert (2 ≤ length (pre ++ (label, (time, ic, mp, sp)) :: post))%nat as Hn.
    { rewrite length_app. simpl. destruct pre, post; simpl; try lia. exfalso; auto. }
    rewrite plot_results_multi by done.
    rewrite (multi_loop_spikes_raise _ _ _ _ _ _ _ _ _ _ _ _ Hd Hsome Hraise 0)
      by (done || lia).
    rewrite bool_decide_eq_false_2 by done. by rewrite app_nil_r.
Qed.

(** X10.  A call returns exactly when [results] is not empty, every label
    has parameters and every [time[spikes.bool()]] evaluates, and, in a
    call with a single entry, [time] is as long as [input_current] and
    [membrane_potential]. *)
Theorem plot_results_returns_iff results ps st :
  (∃ st', plot_results get_ylim list_getitem_tensor results ps st = (Ok tt, st')) ↔
  results ≠ [] ∧
  Forall (row_ready list_getitem_tensor ps) results ∧
  (∀ label time ic mp sp,
     results = [(label, (time, ic, mp, sp))] →
     length (samples time) = length (samples ic) ∧
     length (samples time) = length (samples mp)).
Proof.
  split.
  - intros [st' Hrun]. split; [| split].
    + intros ->. by rewrite plot_results_empty in Hrun.
    + apply Forall_forall. intros item Hin%list_elem_of_In.
      exact (row_ready_lookup _ _ _ _ _ Hrun Hin).
    + intros label time ic mp sp ->.
      apply plot_results_single_ok in Hrun as (p & spike_times & H1 & H2 & _). done.
  - intros (Hne & Hready & Hshape). by apply plot_results_returns.
Qed.

(** X11.  A call that returns has shown, after the figures that were open
    before it, one new figure of size 10 by 3 per entry, with tight layout
    and two axes per entry, and has left no figure open. *)
Theorem plot_results_layout results ps st st' :
  plot_results get_ylim list_getitem_tensor results ps st = (Ok tt, st') →
  open_figs st' = [] ∧
  ∃ fig,
    displayed st' = displayed st ++ rev (open_figs st) ++ [fig] ∧
    figsize fig = Some (10, 3 * Z.of_nat (length results))%Z ∧
    tight fig = true ∧
    length (fig_axes fig) = (2 * length results)%nat.
Proof.
  intros Hrun. destruct results as [|item [|item' results]].
  - by rewrite plot_results_empty in Hrun.
  - destruct item as [label [[[time ic] mp] sp]].
    apply plot_results_single_ok in Hrun as (p & spike_times & _ & _ & _ & _ & ->).
    split; [done |]. by eexists.
  - apply plot_results_multi_ok in Hrun as (axs & Hd & ->); [| simpl; lia].
    split; [done |]. eexists. split; [reflexivity |]. split; [done |]. split; [done |].
    by apply rows_drawn_length in Hd.
Qed.

(** X12.  After a call that returns, the membrane-potential axes of a row
    holds, in this order: the membrane potential, against the values of
    [time] in a call with one entry and against the sample index
    otherwise; a red dashed line at the [v_threshold] of the row's
    parameters; in a call with two or more entries a grey dashed line at
    0; and the spike indicators, of width 1/2 with one entry and 1
    otherwise. *)
Theorem membrane_axes_lines :
  (∀ label time ic mp sp ps st st',
     plot_results get_ylim list_getitem_tensor [(label, (time, ic, mp, sp))] ps st
       = (Ok tt, st') →
     ∃ fig ax p x lo hi,
       list.last (displayed st') = Some fig ∧
       fig_axes fig !! 1%nat = Some ax ∧
       ps !! label = Some p ∧
       artists ax =
         [Line2D (XValues (samples time)) (samples mp) None None;
          HLine (v_threshold p) "r" "--" "Threshold";
          VLines x lo hi "r" (1 # 2) (1 # 2)]) ∧
  (∀ results ps st st',
     (2 ≤ length results)%nat →
     plot_results get_ylim list_getitem_tensor results ps st = (Ok tt, st') →
     ∃ fig,
       list.last (displayed st') = Some fig ∧
       ∀ i label time ic mp sp,
         results !! i = Some (label, (time, ic, mp, sp)) →
         ∃ ax p x lo hi,
           fig_axes fig !! (2 * i + 1)%nat = Some ax ∧
           ps !! label = Some p ∧
           artists ax =
             [Line2D Index (samples mp) None None;
              HLine (v_threshold p) "r" "--" "Threshold";
              HLine 0 "grey" "--" "RP";
              VLines x lo hi "r" 1 (1 # 2)]).
Proof.
  split.
  - intros label time ic mp sp ps st st' (axs & -> & Hrows)%plot_results_ok_inv.
    destruct (Hrows 0%nat _ _ _ _ _ eq_refl) as (p & spike_times & Hp & _ & _ & HR).
    eexists _, _, p, _, _, _. split; [apply last_shown |]. split; [exact HR |].
    split; [exact Hp | reflexivity].
  - intros results ps st st' Hn (axs & -> & Hrows)%plot_results_ok_inv.
    eexists. split; [apply last_shown |].
    intros i label time ic mp sp Hi.
    destruct (Hrows _ _ _ _ _ _ Hi) as (p & spike_times & Hp & _ & _ & HR).
    rewrite !bool_decide_eq_false_2 in HR by lia.
    eexists _, p, _, _, _. split; [exact HR |]. split; [exact Hp | reflexivity].
Qed.

(** X13.  After a call that returns, both axes of a row are titled with
    the row's label and have the x-label "Timesteps"; the input-current
    axes has the y-label "Current" and no legend; the membrane-potential
    axes has the y-label "Voltage" and a legend of "Threshold" alone in a
    call with one entry, and the y-label "Membrane Potential" and a legend
    of "Threshold" and "RP" at the upper right otherwise.  The spike
    indicators are in no legend. *)
Theorem plot_results_decorations results ps st st' :
  plot_results get_ylim list_getitem_tensor results ps st = (Ok tt, st') →
  ∃ fig,
    list.last (displayed st') = Some fig ∧
    ∀ i label s,
      results !! i = Some (label, s) →
      ∃ axL axR,
        fig_axes fig !! (2 * i)%nat = Some axL ∧
        fig_axes fig !! (2 * i + 1)%nat = Some axR ∧
        title axL = Some (label +:+ " - Input Current") ∧
        xlabel axL = Some "Timesteps" ∧
        ylabel axL = Some "Current" ∧
        ax_legend axL = None ∧
        title axR = Some (label +:+ " - Membrane Potential") ∧
        xlabel axR = Some "Timesteps" ∧
        ylabel axR
          = Some (if decide (length results = 1%nat) then "Voltage"
                  else "Membrane Potential") ∧
        ax_legend axR
          = Some (if decide (length results = 1%nat)
                  then {| loc := None; entries := ["Threshold"] |}
                  else {| loc := Some "upper right"; entries := ["Threshold"; "RP"] |}).
Proof.
  intros (axs & -> & Hrows)%plot_results_ok_inv.
  eexists. split; [apply last_shown |].
  intros i label [[[time ic] mp] sp] Hi.
  destruct (Hrows _ _ _ _ _ _ Hi) as (p & spike_times & _ & _ & HL & HR).
  eexists _, _. split; [exact HL |]. split; [exact HR |].
  case_decide as Hn.
  - rewrite !bool_decide_eq_true_2 by done. repeat split.
  - rewrite !bool_decide_eq_false_2 by done. repeat split.
Qed.

(** X14.  A call that raises has shown nothing and has left the figure it
    made open in pyplot, on top of the figures that were open before it,
    without tight layout. *)
Theorem plot_results_failure_leaves_figure results ps st e st' :
  plot_results get_ylim list_getitem_tensor results ps st = (Raise e, st') →
  displayed st' = displayed st ∧
  ∃ fig,
    open_figs st' = fig :: open_figs st ∧
    figsize fig = Some (10, 3 * Z.of_nat (length results))%Z ∧
    tight fig = false.
Proof.
  intros (axs & ->)%plot_results_raise_state. split; [done |]. by eexists.
Qed.

(** X15.  In a call with one entry, a [time] that differs in length from
    [input_current] or [membrane_potential] is a [ValueError], whatever
    [param_sets] holds, and with the first of the two nothing has been
    drawn; in a call with two or more entries these lengths play no part:
    it returns as soon as every label has parameters and every
    [time[spikes.bool()]] evaluates. *)
Theorem length_mismatch_by_branch :
  (∀ label time ic mp sp ps st,
     length (samples time) ≠ length (samples ic) ∨
     length (samples time) ≠ length (samples mp) →
     ∃ st',
       plot_results get_ylim list_getitem_tensor [(label, (time, ic, mp, sp))] ps st
         = (Raise ValueError, st') ∧
       (length (samples time) ≠ length (samples ic) →
        open_artists st' = open_artists st)) ∧
  (∀ results ps st,
     (2 ≤ length results)%nat →
     Forall (row_ready list_getitem_tensor ps) results →
     ∃ st', plot_results get_ylim list_getitem_tensor results ps st = (Ok tt, st')).
Proof.
  split.
  - intros label time ic mp sp ps st Hne.
    rewrite plot_results_single, single_row_run.
    destruct (decide (_ = length (samples ic))) as [H1|H1].
    + destruct (decide (_ = length (samples mp))) as [H2|H2]; [by destruct Hne |].
      eexists. split; [reflexivity | done].
    + eexists. split; [reflexivity |]. intros _. reflexivity.
  - intros results ps st Hn Hready. apply plot_results_returns; [| done |].
    + intros ->. simpl in Hn. lia.
    + intros label time ic mp sp ->. simpl in Hn. lia.
Qed.

(** X16.  A call that reaches an entry whose [spikes] is a plain list, with
    the rows before it ready, its label in [param_sets] and, in a call with
    that entry alone, [time] as long as [input_current] and
    [membrane_potential], raises [AttributeError] for [bool].  By then the
    row's membrane-potential axes has its threshold line and its legend,
    and no spike indicators. *)
Theorem list_spikes_attribute_error pre label time ic mp d post ps st p :
  Forall (row_ready list_getitem_tensor ps) pre →
  ps !! label = Some p →
  (pre = [] → post = [] →
   length (samples time) = length (samples ic) ∧
   length (samples time) = length (samples mp)) →
  ∃ fig ax,
    plot_results get_ylim list_getitem_tensor
        (pre ++ (label, (time, ic, mp, PyList d)) :: post) ps st
      = (Raise (AttributeError "bool"),
         {| open_figs := fig :: open_figs st; displayed := displayed st |}) ∧
    fig_axes fig !! (2 * length pre + 1)%nat = Some ax ∧
    HLine (v_threshold p) "r" "--" "Threshold" ∈ artists ax ∧
    ax_legend ax ≠ None ∧
    Forall (λ a, ∀ x lo hi c w al, a ≠ VLines x lo hi c w al) (artists ax).
Proof.
  intros Hpre Hsome Hshape.
  destruct (plot_results_spikes_raise pre label time ic mp (PyList d) post ps st p
    (AttributeError "bool") Hpre Hsome eq_refl Hshape) as (axs & Hlen & ->).
  eexists _, _. split; [reflexivity |]. cbn [fig_axes].
  split.
  { rewrite (cons_middle (input_axes _ _ _)), app_assoc.
    apply list_lookup_middle. rewrite length_app. simpl. lia. }
  destruct (bool_decide _); cbn;
    (split; [apply list_elem_of_further, list_elem_of_here |]);
    (split; [done |]); repeat constructor; done.
Qed.

(** X17.  The same with a tensor [time] and a tensor [spikes] of another
    length: the call raises [IndexError], at the same point. *)
Theorem tensor_length_mismatch_index_error pre label t ic mp s post ps st p :
  Forall (row_ready list_getitem_tensor ps) pre →
  ps !! label = Some p →
  length t ≠ length s →
  (pre = [] → post = [] →
   length t = length (samples ic) ∧ length t = length (samples mp)) →
  ∃ fig ax,
    plot_results get_ylim list_getitem_tensor
        (pre ++ (label, (Tensor t, ic, mp, Tensor s)) :: post) ps st
      = (Raise IndexError,
         {| open_figs := fig :: open_figs st; displayed := displayed st |}) ∧
    fig_axes fig !! (2 * length pre + 1)%nat = Some ax ∧
    HLine (v_threshold p) "r" "--" "Threshold" ∈ artists ax ∧
    ax_legend ax ≠ None ∧
    Forall (λ a, ∀ x lo hi c w al, a ≠ VLines x lo hi c w al) (artists ax).
Proof.
  intros Hpre Hsome Hne Hshape.
  assert (and_then (bool_method (Tensor s)) (getitem_mask list_getitem_tensor (Tensor t))
    = Raise IndexError) as Hraise.
  { cbn. rewrite length_fmap. by rewrite decide_False. }
  destruct (plot_results_spikes_raise pre label (Tensor t) ic mp (Tensor s) post ps st p
    IndexError Hpre Hsome Hraise Hshape) as (axs & Hlen & ->).
  eexists _, _. split; [reflexivity |]. cbn [fig_axes].
  split.
  { rewrite (cons_middle (input_axes _ _ _)), app_assoc.
    apply list_lookup_middle. rewrite length_app. simpl. lia. }
  destruct (bool_decide _); cbn;
    (split; [apply list_elem_of_further, list_elem_of_here |]);
    (split; [done |]); repeat constructor; done.
Qed.

(** X18.  After a call of [plot_results] that raised, a call of
    [plot_reservoir_data] draws its two lines on the last axes of the
    figure that call left open, after whatever is on it, and shows that
    figure. *)
Theorem plot_reservoir_data_after_failure results ps st e st1 x y feature target :
  plot_results get_ylim list_getitem_tensor results ps st = (Raise e, st1) →
  ∃ fig init ax earlier,
    plot_reservoir_data x y feature target st1
      = (Ok tt,
         {| open_figs := [];
            displayed := displayed st ++ rev (open_figs st) ++ [fig] |}) ∧
    figsize fig = Some (10, 3 * Z.of_nat (length results))%Z ∧
    fig_axes fig = init ++ [ax] ∧
    artists ax = earlier ++
      [Line2D Index (take 50 x) (Some ("Reservoir input: " +:+ feature)) None;
       Line2D Index (take 50 y) (Some ("Reservoir target: " +:+ target)) None].
Proof.
  intros (axs & ->)%plot_results_raise_state. unfold created.
  destruct (plot_reservoir_data_on_open x y feature target
    {| figsize := Some (10, 3 * Z.of_nat (length results))%Z; fig_axes := axs;
       tight := false |} (open_figs st) (displayed st)) as [init ->].
  eexists _, init, _, _. split; [reflexivity |]. split; [reflexivity |].
  split; [reflexivity |]. cbn [artists add_legend add_artists]. by rewrite <- app_assoc.
Qed.
End PlotResultsFacts.

(** ** What [plot_results] asks of [time] and [spikes] *)



(** ** Concrete runs *)

Ltac by_evaluation := apply (bool_decide_unpack _); vm_compute; exact I.

(** C1 at the label "Spikes" and the code 2. *)
Lemma codec_round_trip_witness :
  and_then (Codec.reservoir_dict_to_int "Spikes") Codec.reservoir_dict_to_str
    = Ok "Spikes" ∧
  and_then (Codec.reservoir_dict_to_str 2) Codec.reservoir_dict_to_int = Ok 2%Z.
Proof.
  split.
  - apply (proj1 codec_round_trip "Spikes"). by_evaluation.
  - apply (proj2 codec_round_trip 2%Z). by_evaluation.
Defined.

(** C4 at the string "voltage" and the code -1. *)
Lemma codec_unknown_witness :
  Codec.reservoir_dict_to_int "voltage" = Raise (KeyError (KStr "voltage")) ∧
  Codec.reservoir_dict_to_str (-1) = Raise (KeyError (KInt (-1))).
Proof.
  split.
  - apply (proj1 codec_unknown "voltage"). by_evaluation.
  - apply (proj1 (proj2 codec_unknown) (-1)%Z). by_evaluation.
Defined.

(** C8 on the grid of 30 rows and 5 columns: 5 lines of 30 samples. *)
Lemma plot_reservoir_activations_witness :
  ∃ fig ax,
    plot_reservoir_activations sample_states initial
      = (Ok tt, {| open_figs := []; displayed := [fig] |}) ∧
    fig_axes fig = [ax] ∧
    length (artists ax) = 5%nat ∧
    ∀ j, (j < 5)%nat →
      ∃ y, artists ax !! j = Some (Line2D Index y None None) ∧ length y = 30%nat.
Proof.
  destruct (plot_reservoir_activations_draws sample_states initial)
    as (fig & ax & Hrun & Haxes & Hlen & Hlines).
  - unfold well_shaped. by_evaluation.
  - exists fig, ax. split; [exact Hrun |]. split; [exact Haxes |].
    split; [exact Hlen |]. intros j Hj.
    destruct (Hlines j Hj) as (y & Hy & Hylen & _). by exists y.
Defined.

(** C3 on one entry and on two. *)
Lemma input_current_abscissa_witness :
  (∃ fig ax,
     list.last (displayed (plot_results sample_ylim sample_list_getitem
                             sample_one sample_params initial).2) = Some fig ∧
     fig_axes fig !! 0%nat = Some ax ∧
     artists ax = [Line2D (XValues [0; 1; 2]%Q) [5; 5; 5]%Q None None]) ∧
  (∃ fig ax,
     list.last (displayed (plot_results sample_ylim sample_list_getitem
                             sample_two sample_params initial).2) = Some fig ∧
     fig_axes fig !! 2%nat = Some ax ∧
     artists ax = [Line2D Index [5; 5; 5]%Q None None]).
Proof.
  split.
  - destruct (proj1 (input_current_abscissa sample_ylim sample_list_getitem)
        "a" (Tensor [0; 1; 2]%Q) (Tensor [5; 5; 5]%Q) (Tensor [0; 1; 0]%Q)
        (Tensor [0; 1; 0]%Q) sample_params initial
        (plot_results sample_ylim sample_list_getitem sample_one sample_params initial).2)
      as (fig & ax & Hlast & Hax & _ & Hart).
    + vm_compute. reflexivity.
    + exists fig, ax. split; [exact Hlast |]. split; [exact Hax | exact Hart].
  - destruct (proj2 (input_current_abscissa sample_ylim sample_list_getitem)
        sample_two sample_params initial
        (plot_results sample_ylim sample_list_getitem sample_two sample_params initial).2)
      as (fig & Hlast & Hrows).
    + simpl. lia.
    + vm_compute. reflexivity.
    + destruct (Hrows 1%nat "b" (Tensor [0; 1; 2]%Q) (Tensor [5; 5; 5]%Q)
        (Tensor [0; 1; 0]%Q) (Tensor [0; 1; 0]%Q) eq_refl) as (ax & Hax & _ & Hart).
      exists fig, ax. split; [exact Hlast |]. split; [exact Hax | exact Hart].
Defined.

(** C5 on two entries: the second row's axes ends with its indicator, at
    time 1. *)
Lemma spike_markers_witness :
  ∃ fig ax before linewidth,
    list.last (displayed (plot_results sample_ylim sample_list_getitem
                            sample_two sample_params initial).2) = Some fig ∧
    fig_axes fig !! 3%nat = Some ax ∧
    artists ax = artists before ++
      [VLines [1%Q] (fst (sample_ylim before)) (snd (sample_ylim before))
         "r" linewidth (1 # 2)] ∧
    Forall (λ a, ∀ x lo hi c w al, a ≠ VLines x lo hi c w al) (artists before).
Proof.
  destruct (spike_markers sample_ylim sample_list_getitem sample_two sample_params initial
      (plot_results sample_ylim sample_list_getitem sample_two sample_params initial).2)
    as (fig & Hlast & Hrows).
  - vm_compute. reflexivity.
  - destruct (Hrows 1%nat "b" (Tensor [0; 1; 2]%Q) (Tensor [5; 5; 5]%Q)
      (Tensor [0; 1; 0]%Q) (Tensor [0; 1; 0]%Q) eq_refl)
      as (ax & before & spike_times & linewidth & Hax & _ & Hart & _ & _ & _ & _ & _
          & Hnone & Htensor).
    destruct (Htensor _ _ eq_refl eq_refl) as [_ ->].
    exists fig, ax, before, linewidth. split; [exact Hlast |]. split; [exact Hax |].
    split; [exact Hart | exact Hnone].
Defined.

(** C5 as the spec states it fails on one entry whose [time] is a list: the
    call returns, and its indicator is at time 7, where no spike is. *)
Lemma spike_marker_at_falsy_spike :
  (plot_results sample_ylim sample_list_getitem sample_one_list_time sample_params
     initial).1 = Ok tt ∧
  ¬ markers_at_truthy_spikes sample_ylim sample_list_getitem sample_one_list_time
      sample_params initial.
Proof.
  split; [vm_compute; reflexivity |].
  intros Hclaim.
  destruct (Hclaim
      (plot_results sample_ylim sample_list_getitem sample_one_list_time sample_params
         initial).2) as (fig & Hlast & Hrows).
  { vm_compute. reflexivity. }
  destruct (Hrows 0%nat "a" (PyList [7]%Q) (Tensor [5]%Q) (Tensor [0]%Q) (Tensor [0]%Q)
    eq_refl) as (ax & earlier & lo & hi & c & w & al & Hax & Hart).
  vm_compute in Hlast. injection Hlast as <-.
  vm_compute in Hax. injection Hax as <-.
  apply (f_equal list.last) in Hart. rewrite last_snoc in Hart.
  vm_compute in Hart. discriminate Hart.
Qed.



(** C2 as the spec states it fails on one entry and no parameters: the
    lookup error comes after two lines were drawn. *)
Lemma plot_results_draws_before_lookup :
  (∃ label s,
     (label, s) ∈ sample_one ∧ (∅ : gmap string neuron_params) !! label = None) ∧
  ¬ fails_before_drawing sample_ylim sample_list_getitem sample_one ∅ initial.
Proof.
  split.
  - exists "a", sample_series. split; [apply list_elem_of_here | reflexivity].
  - intros (label & st' & Hrun & Hdrawn & _).
    vm_compute in Hrun. injection Hrun as _ <-.
    vm_compute in Hdrawn. discriminate Hdrawn.
Qed.

(** C2 as amended, on one entry without parameters, and on a second entry
    without parameters after a first that has them. *)
Lemma missing_params_fail_unshown_witness :
  (∃ e st',
     plot_results sample_ylim sample_list_getitem sample_one ∅ initial = (Raise e, st') ∧
     displayed st' = displayed initial) ∧
  (∃ fig axL axR x,
     plot_results sample_ylim sample_list_getitem
         ([("a", sample_series)] ++ ("c", sample_series) :: []) sample_params initial
       = (Raise (KeyError (KStr "c")),
          {| open_figs := fig :: open_figs initial; displayed := displayed initial |}) ∧
     fig_axes fig !! 2%nat = Some axL ∧
     artists axL = [Line2D x [5; 5; 5]%Q None None] ∧
     fig_axes fig !! 3%nat = Some axR ∧
     artists axR = [Line2D x [0; 1; 0]%Q None None]).
Proof.
  split.
  - apply (proj1 (missing_params_fail_unshown sample_ylim sample_list_getitem)).
    exists "a", sample_series. split; [apply list_elem_of_here | reflexivity].
  - apply (proj2 (missing_params_fail_unshown sample_ylim sample_list_getitem)
      [("a", sample_series)] "c" (Tensor [0; 1; 2]%Q) (Tensor [5; 5; 5]%Q)
      (Tensor [0; 1; 0]%Q) (Tensor [0; 1; 0]%Q) [] sample_params initial).
    + reflexivity.
    + constructor; [| constructor].
      split; [by eexists | by eexists].
    + intros [=].
Defined.

(** ** Concrete runs for the further properties *)

(** X2 at the code 3 and the label "Spikes". *)
Lemma codec_injective_witness :
  ("Spikes" = "Spikes") ∧ (3 = 3)%Z.
Proof.
  split.
  - apply (proj1 codec_injective "Spikes" "Spikes" 3%Z); reflexivity.
  - apply (proj2 codec_injective 3%Z 3%Z "Spikes"); reflexivity.
Defined.

(** X4 at the label "Input Current" and the code 2. *)
Lemma codec_range_witness :
  ((0 ≤ 1 ≤ 3)%Z ∧ "Input Current" ∈ Codec.labels) ∧
  ((0 ≤ 2 ≤ 3)%Z ∧ "Membrane Potential" ∈ Codec.labels).
Proof.
  split.
  - apply (proj1 codec_range "Input Current" 1%Z). reflexivity.
  - apply (proj2 codec_range 2%Z "Membrane Potential"). reflexivity.
Defined.

(** X5 on two sequences that differ at sample 71. *)
Lemma later_samples_ignored_witness :
  plot_reservoir_data sample_long_a sample_long_a "I" "V" initial
    = plot_reservoir_data sample_long_b sample_long_b "I" "V" initial ∧
  plot_reservoir_predictions sample_long_a sample_long_a [] "I" "V" initial
    = plot_reservoir_predictions sample_long_b sample_long_b [] "I" "V" initial.
Proof.
  split.
  - apply (proj1 later_samples_ignored); reflexivity.
  - apply (proj2 later_samples_ignored); reflexivity.
Defined.

(** X6 on two grids that differ in column 21. *)
Lemma later_columns_ignored_witness :
  plot_reservoir_activations sample_wide_a initial
    = plot_reservoir_activations sample_wide_b initial.
Proof.
  apply later_columns_ignored.
  - reflexivity.
  - intros j Hj. do 20 (destruct j as [|j]; [reflexivity |]). lia.
Defined.

(** X9 after a plot of the sample grid. *)
Lemma plot_reservoir_data_after_plot_witness :
  ∃ fig1 fig2 ax,
    (plot_reservoir_activations sample_states ;;
     plot_reservoir_data [1; 2]%Q [3; 4]%Q "I" "V")%py initial
      = (Ok tt, {| open_figs := []; displayed := [fig1; fig2] |}) ∧
    fig_axes fig2 = [ax] ∧
    artists ax =
      [Line2D Index [1; 2]%Q (Some "Reservoir input: I") None;
       Line2D Index [3; 4]%Q (Some "Reservoir target: V") None].
Proof.
  apply (plot_reservoir_data_after_plot [1; 2]%Q [3; 4]%Q "I" "V" initial
    (plot_reservoir_activations sample_states)).
  left. by exists sample_states.
Defined.

(** X11 on two entries: one figure of 10 by 6 with four axes. *)
Lemma plot_results_layout_witness :
  ∃ fig,
    displayed (plot_results sample_ylim sample_list_getitem sample_two sample_params
                 initial).2 = [fig] ∧
    figsize fig = Some (10, 6)%Z ∧
    tight fig = true ∧
    length (fig_axes fig) = 4%nat.
Proof.
  destruct (plot_results_layout sample_ylim sample_list_getitem sample_two sample_params
      initial
      (plot_results sample_ylim sample_list_getitem sample_two sample_params initial).2)
    as (_ & fig & Hshown & Hsize & Htight & Hlen).
  - vm_compute. reflexivity.
  - exists fig. split; [exact Hshown |]. split; [exact Hsize |].
    split; [exact Htight | exact Hlen].
Defined.

(** X12 on one entry and on two. *)
Lemma membrane_axes_lines_witness :
  (∃ fig ax x lo hi,
     list.last (displayed (plot_results sample_ylim sample_list_getitem
                             sample_one sample_params initial).2) = Some fig ∧
     fig_axes fig !! 1%nat = Some ax ∧
     artists ax =
       [Line2D (XValues [0; 1; 2]%Q) [0; 1; 0]%Q None None;
        HLine 1 "r" "--" "Threshold";
        VLines x lo hi "r" (1 # 2) (1 # 2)]) ∧
  (∃ fig ax x lo hi,
     list.last (displayed (plot_results sample_ylim sample_list_getitem
                             sample_two sample_params initial).2) = Some fig ∧
     fig_axes fig !! 3%nat = Some ax ∧
     artists ax =
       [Line2D Index [0; 1; 0]%Q None None;
        HLine 2 "r" "--" "Threshold";
        HLine 0 "grey" "--" "RP";
        VLines x lo hi "r" 1 (1 # 2)]).
Proof.
  split.
  - destruct (proj1 (membrane_axes_lines sample_ylim sample_list_getitem)
        "a" (Tensor [0; 1; 2]%Q) (Tensor [5; 5; 5]%Q) (Tensor [0; 1; 0]%Q)
        (Tensor [0; 1; 0]%Q) sample_params initial
        (plot_results sample_ylim sample_list_getitem sample_one sample_params initial).2)
      as (fig & ax & p & x & lo & hi & Hlast & Hax & Hp & Hart).
    + vm_compute. reflexivity.
    + injection Hp as <-.
      exists fig, ax, x, lo, hi. split; [exact Hlast |]. split; [exact Hax | exact Hart].
  - destruct (proj2 (membrane_axes_lines sample_ylim sample_list_getitem)
        sample_two sample_params initial
        (plot_results sample_ylim sample_list_getitem sample_two sample_params initial).2)
      as (fig & Hlast & Hrows).
    + simpl. lia.
    + vm_compute. reflexivity.
    + destruct (Hrows 1%nat "b" (Tensor [0; 1; 2]%Q) (Tensor [5; 5; 5]%Q)
        (Tensor [0; 1; 0]%Q) (Tensor [0; 1; 0]%Q) eq_refl)
        as (ax & p & x & lo & hi & Hax & Hp & Hart).
      injection Hp as <-.
      exists fig, ax, x, lo, hi. split; [exact Hlast |]. split; [exact Hax | exact Hart].
Defined.

(** X13 on two entries, at the second. *)
Lemma plot_results_decorations_witness :
  ∃ fig axL axR,
    list.last (displayed (plot_results sample_ylim sample_list_getitem
                            sample_two sample_params initial).2) = Some fig ∧
    fig_axes fig !! 2%nat = Some axL ∧
    fig_axes fig !! 3%nat = Some axR ∧
    title axL = Some "b - Input Current" ∧
    ylabel axR = Some "Membrane Potential" ∧
    ax_legend axR = Some {| loc := Some "upper right"; entries := ["Threshold"; "RP"] |}.
Proof.
  destruct (plot_results_decorations sample_ylim sample_list_getitem sample_two
      sample_params initial
      (plot_results sample_ylim sample_list_getitem sample_two sample_params initial).2)
    as (fig & Hlast & Hrows).
  - vm_compute. reflexivity.
  - destruct (Hrows 1%nat "b" sample_series eq_refl)
      as (axL & axR & HL & HR & Ht & _ & _ & _ & _ & _ & Hy & Hl).
    exists fig, axL, axR. split; [exact Hlast |]. split; [exact HL |].
    split; [exact HR |]. split; [exact Ht |]. split; [exact Hy | exact Hl].
Defined.

(** X14 on one entry without parameters. *)
Lemma plot_results_failure_leaves_figure_witness :
  displayed (plot_results sample_ylim sample_list_getitem sample_one ∅ initial).2 = [] ∧
  ∃ fig,
    open_figs (plot_results sample_ylim sample_list_getitem sample_one ∅ initial).2
      = [fig] ∧
    figsize fig = Some (10, 3)%Z ∧
    tight fig = false.
Proof.
  apply (plot_results_failure_leaves_figure sample_ylim sample_list_getitem sample_one ∅
    initial (KeyError (KStr "a"))).
  vm_compute. reflexivity.
Defined.

(** X15: the uneven entry is refused alone and accepted beside another. *)
Lemma length_mismatch_by_branch_witness :
  (∃ st',
     plot_results sample_ylim sample_list_getitem [("a", sample_series_uneven)]
         sample_params initial
       = (Raise ValueError, st') ∧
     open_artists st' = open_artists initial) ∧
  (∃ st',
     plot_results sample_ylim sample_list_getitem
         [("a", sample_series_uneven); ("b", sample_series)] sample_params initial
       = (Ok tt, st')).
Proof.
  split.
  - destruct (proj1 (length_mismatch_by_branch sample_ylim sample_list_getitem)
        "a" (Tensor [0; 1; 2]%Q) (Tensor [5; 5]%Q) (Tensor [0; 1; 0]%Q)
        (Tensor [0; 1; 0]%Q) sample_params initial) as (st' & Hrun & Hnone).
    + left. simpl. lia.
    + exists st'. split; [exact Hrun |]. apply Hnone. simpl. lia.
  - apply (proj2 (length_mismatch_by_branch sample_ylim sample_list_getitem)).
    + simpl. lia.
    + repeat constructor; by eexists.
Defined.

(** X16 on a second entry with list spikes. *)
Lemma list_spikes_attribute_error_witness :
  ∃ fig ax,
    plot_results sample_ylim sample_list_getitem
        ([("a", sample_series)] ++ ("b", sample_series_list) :: []) sample_params initial
      = (Raise (AttributeError "bool"), {| open_figs := [fig]; displayed := [] |}) ∧
    fig_axes fig !! 3%nat = Some ax ∧
    HLine 2 "r" "--" "Threshold" ∈ artists ax.
Proof.
  destruct (list_spikes_attribute_error sample_ylim sample_list_getitem
      [("a", sample_series)] "b" (Tensor [0; 1; 2]%Q) (Tensor [5; 5; 5]%Q)
      (Tensor [0; 1; 0]%Q) [0; 1; 0]%Q [] sample_params initial {| v_threshold := 2 |})
    as (fig & ax & Hrun & Hax & Hline & _).
  - repeat constructor; by eexists.
  - reflexivity.
  - intros [=].
  - exists fig, ax. split; [exact Hrun |]. split; [exact Hax | exact Hline].
Defined.

(** X17 on one entry with two spikes for three time steps. *)
Lemma tensor_length_mismatch_index_error_witness :
  ∃ fig ax,
    plot_results sample_ylim sample_list_getitem
        ([] ++ ("a", sample_series_short_spikes) :: []) sample_params initial
      = (Raise IndexError, {| open_figs := [fig]; displayed := [] |}) ∧
    fig_axes fig !! 1%nat = Some ax ∧
    HLine 1 "r" "--" "Threshold" ∈ artists ax.
Proof.
  destruct (tensor_length_mismatch_index_error sample_ylim sample_list_getitem
      [] "a" [0; 1; 2]%Q (Tensor [5; 5; 5]%Q) (Tensor [0; 1; 0]%Q) [0; 1]%Q []
      sample_params initial {| v_threshold := 1 |})
    as (fig & ax & Hrun & Hax & Hline & _).
  - constructor.
  - reflexivity.
  - simpl. lia.
  - intros _ _. simpl. lia.
  - exists fig, ax. split; [exact Hrun |]. split; [exact Hax | exact Hline].
Defined.

(** X18 after the call on one entry without parameters. *)
Lemma plot_reservoir_data_after_failure_witness :
  ∃ fig init ax earlier,
    plot_reservoir_data [1; 2]%Q [3; 4]%Q "I" "V"
        (plot_results sample_ylim sample_list_getitem sample_one ∅ initial).2
      = (Ok tt, {| open_figs := []; displayed := [fig] |}) ∧
    figsize fig = Some (10, 3)%Z ∧
    fig_axes fig = init ++ [ax] ∧
    artists ax = earlier ++
      [Line2D Index [1; 2]%Q (Some "Reservoir input: I") None;
       Line2D Index [3; 4]%Q (Some "Reservoir target: V") None].
Proof.
  apply (plot_reservoir_data_after_failure sample_ylim sample_list_getitem sample_one ∅
    initial (KeyError (KStr "a"))).
  vm_compute. reflexivity.
Defined.
